(** * cb-tumblebug: the config store and the vNet registry

    A shallow embedding of two pieces of the orchestrator:

    - package [common]: [UpdateConfig], [UpdateEnv], [GetConfig],
      [ListConfig], [CheckConfig] over the cb-store key/value store and the
      process-wide configuration variables;
    - package [resource]: [CreateVNet] (src/core/resource/vnet.go) over the
      key/value store, the Spider driver client and the label index.

    Go strings are [string]; a Go [error] is an inductive value that records
    which call produced it; package-level variables and the key/value store
    are threaded explicitly as a state record.  Values kept in the store are
    JSON documents: the textual layer of [encoding/json] is abstracted, a
    stored document is the struct that was marshalled (or an opaque text
    that does not decode). *)

From Stdlib Require Import String Ascii List Bool.
From stdpp Require Import gmap strings list fin_maps.

Local Open Scope string_scope.
Local Open Scope list_scope.

(** ** Strings and key paths *)

(** [strings.TrimPrefix]-like helper: the rest of [s] after [p], when [p]
    is a prefix of [s]. *)
Fixpoint strip_prefix (p s : string) : option string :=
  match p with
  | EmptyString => Some s
  | String a p' =>
      match s with
      | EmptyString => None
      | String b s' => if Ascii.eqb a b then strip_prefix p' s' else None
      end
  end.

Fixpoint has_slash (s : string) : bool :=
  match s with
  | EmptyString => false
  | String a s' => if Ascii.eqb a "/" then true else has_slash s'
  end.

(** ** Package common: the config store *)

Module Config.

(** swagger:request ConfigReq *)
Module ConfigReq.
Record t := mk { Name : string; Value : string }.
End ConfigReq.

(** swagger:response ConfigInfo *)
Module ConfigInfo.
Record t := mk { Id : string; Name : string; Value : string }.
Definition zero : t := mk "" "" "".
End ConfigInfo.

(** A document of the store, by what [json.Unmarshal] makes of it for a
    [ConfigInfo]: the JSON of a [ConfigInfo]; a text that is not JSON, which
    is refused before the target is touched; or a JSON text [s] with a value
    of the wrong type, of which the fields [id], [name] and [value] that do
    decode are stored in the target ([None]: the field is left as it is)
    before the type error is returned. *)
Inductive Doc :=
| DocConfig (c : ConfigInfo.t)
| DocRaw (s : string)
| DocMistyped (s : string) (id name value : option string).

(** Go errors of the package: the error of the store; the error that
    [fmt.Errorf(format)] builds from the format [format], without operands;
    the error of [json.Unmarshal] on the text [s]. *)
Inductive error :=
| StoreError (msg : string)
| Errorf (format : string)
| UnmarshalError (s : string).

(** A call either returns or panics (nil pointer dereference). *)
Inductive outcome (A : Type) :=
| Returns (a : A)
| Panics.
Arguments Returns {A} a.
Arguments Panics {A}.

(** icbs.KeyValue *)
Module KeyValue.
Record t := mk { Key : string; Value : Doc }.
End KeyValue.

(** The names of the configuration keys (constants [StrSPIDER_REST_URL],
    ..., declared in another file of the package; the values are the
    enumerated configuration keys). *)
Definition StrSPIDER_REST_URL := "SPIDER_REST_URL".
Definition StrDRAGONFLY_REST_URL := "DRAGONFLY_REST_URL".
Definition StrDB_URL := "DB_URL".
Definition StrDB_DATABASE := "DB_DATABASE".
Definition StrDB_USER := "DB_USER".
Definition StrDB_PASSWORD := "DB_PASSWORD".
Definition StrAUTOCONTROL_DURATION_MS := "AUTOCONTROL_DURATION_MS".

Definition allowList : list string :=
  [ StrSPIDER_REST_URL; StrDRAGONFLY_REST_URL; StrDB_URL; StrDB_DATABASE;
    StrDB_USER; StrDB_PASSWORD; StrAUTOCONTROL_DURATION_MS ].

(** Package-level state: the store behind [CBStore] and the in-process
    configuration variables. *)
Record State := mkState {
  CBStore : gmap string Doc;
  SPIDER_REST_URL : string;
  DRAGONFLY_REST_URL : string;
  DB_URL : string;
  DB_DATABASE : string;
  DB_USER : string;
  DB_PASSWORD : string;
  AUTOCONTROL_DURATION_MS : string
}.

Definition with_store (m : gmap string Doc) (st : State) : State :=
  mkState m (SPIDER_REST_URL st) (DRAGONFLY_REST_URL st) (DB_URL st)
    (DB_DATABASE st) (DB_USER st) (DB_PASSWORD st) (AUTOCONTROL_DURATION_MS st).

(** The mirror variable that belongs to a key, if the key has one. *)
Definition mirror (id : string) (st : State) : option string :=
  if String.eqb id StrSPIDER_REST_URL then Some (SPIDER_REST_URL st)
  else if String.eqb id StrDRAGONFLY_REST_URL then Some (DRAGONFLY_REST_URL st)
  else if String.eqb id StrDB_URL then Some (DB_URL st)
  else if String.eqb id StrDB_DATABASE then Some (DB_DATABASE st)
  else if String.eqb id StrDB_USER then Some (DB_USER st)
  else if String.eqb id StrDB_PASSWORD then Some (DB_PASSWORD st)
  else if String.eqb id StrAUTOCONTROL_DURATION_MS then Some (AUTOCONTROL_DURATION_MS st)
  else None.

Definition mirrors (st : State) : list string :=
  [ SPIDER_REST_URL st; DRAGONFLY_REST_URL st; DB_URL st; DB_DATABASE st;
    DB_USER st; DB_PASSWORD st; AUTOCONTROL_DURATION_MS st ].

(** The store is an external service: each operation may fail.  The failures
    are given by the environment, per operation and argument. *)
Record Faults := mkFaults {
  put_err : string -> Doc -> option string;
  get_err : string -> option string;
  list_err : string -> option string
}.

Definition noFaults : Faults :=
  mkFaults (fun _ _ => None) (fun _ => None) (fun _ => None).

Section Store.
Variable F : Faults.

(** Modelled from the spec: the key/value store contract [Put(k, v)],
    [Get(k) -> {key, value} | none], [GetList(prefix, recursive)] and
    [GetChildList(entries, prefix)] (the one-level-below filter); the store
    client itself is an external library. *)
Definition Put (key : string) (val : Doc) (st : State) : option error * State :=
  match put_err F key val with
  | Some m => (Some (StoreError m), st)
  | None => (None, with_store (<[key := val]> (CBStore st)) st)
  end.

Definition Get (key : string) (st : State) : option KeyValue.t * option error :=
  match get_err F key with
  | Some m => (None, Some (StoreError m))
  | None => (KeyValue.mk key <$> CBStore st !! key, None)
  end.

Definition GetList (key : string) (recursive : bool) (st : State)
  : list KeyValue.t * option error :=
  match list_err F key with
  | Some m => ([], Some (StoreError m))
  | None =>
      (List.map (fun kv => KeyValue.mk kv.1 kv.2)
         (List.filter (fun kv => String.prefix key kv.1) (map_to_list (CBStore st))),
       None)
  end.

Definition isChild (depthKey : string) (k : string) : bool :=
  match strip_prefix (depthKey +:+ "/") k with
  | Some rest => negb (has_slash rest)
  | None => false
  end.

Definition GetChildList (keyValueList : list KeyValue.t) (depthKey : string)
  : list KeyValue.t :=
  List.filter (fun kv => isChild depthKey (KeyValue.Key kv)) keyValueList.

(** [json.Marshal(content)] and [json.Unmarshal(..., &res)] for ConfigInfo. *)
Definition Marshal (c : ConfigInfo.t) : Doc := DocConfig c.

Definition Unmarshal (d : Doc) (res : ConfigInfo.t) : ConfigInfo.t * option error :=
  match d with
  | DocConfig c => (c, None)
  | DocRaw s => (res, Some (UnmarshalError s))
  | DocMistyped s id name value =>
      (ConfigInfo.mk (default (ConfigInfo.Id res) id) (default (ConfigInfo.Name res) name)
         (default (ConfigInfo.Value res) value),
       Some (UnmarshalError s))
  end.

Definition CheckConfig (id : string) (st : State) : bool * option error :=
  if String.eqb id "" then
    (false, Some (Errorf "CheckConfig failed; configId given is null."))
  else
    let key := "/config/" +:+ id in
    match Get key st with
    | (Some _, _) => (true, None)
    | (None, _) => (false, None)
    end.

Definition GetConfig (id : string) (st : State) : outcome (ConfigInfo.t * option error) :=
  let res := ConfigInfo.zero in
  let '(check, err) := CheckConfig id st in
  if negb check then
    Returns (res, Some (Errorf ("The config " +:+ id +:+ " does not exist.")))
  else
    match err with
    | Some e => Returns (ConfigInfo.zero, Some e)
    | None =>
        let key := "/config/" +:+ id in
        match Get key st with
        | (_, Some e) => Returns (res, Some e)
        | (None, None) => Panics
        | (Some keyValue, None) =>
            Returns (Unmarshal (KeyValue.Value keyValue) res)
        end
    end.

Definition UpdateEnv (id : string) (st : State) : outcome (option error * State) :=
  match GetConfig id st with
  | Panics => Panics
  | Returns (_, Some e) => Returns (Some e, st)
  | Returns (configInfo, None) =>
      let v := ConfigInfo.Value configInfo in
      let c := CBStore st in
      Returns (None,
        if String.eqb id StrSPIDER_REST_URL then
          mkState c v (DRAGONFLY_REST_URL st) (DB_URL st) (DB_DATABASE st)
            (DB_USER st) (DB_PASSWORD st) (AUTOCONTROL_DURATION_MS st)
        else if String.eqb id StrDRAGONFLY_REST_URL then
          mkState c (SPIDER_REST_URL st) v (DB_URL st) (DB_DATABASE st)
            (DB_USER st) (DB_PASSWORD st) (AUTOCONTROL_DURATION_MS st)
        else if String.eqb id StrDB_URL then
          mkState c (SPIDER_REST_URL st) (DRAGONFLY_REST_URL st) v (DB_DATABASE st)
            (DB_USER st) (DB_PASSWORD st) (AUTOCONTROL_DURATION_MS st)
        else if String.eqb id StrDB_DATABASE then
          mkState c (SPIDER_REST_URL st) (DRAGONFLY_REST_URL st) (DB_URL st) v
            (DB_USER st) (DB_PASSWORD st) (AUTOCONTROL_DURATION_MS st)
        else if String.eqb id StrDB_USER then
          mkState c (SPIDER_REST_URL st) (DRAGONFLY_REST_URL st) (DB_URL st)
            (DB_DATABASE st) v (DB_PASSWORD st) (AUTOCONTROL_DURATION_MS st)
        else if String.eqb id StrDB_PASSWORD then
          mkState c (SPIDER_REST_URL st) (DRAGONFLY_REST_URL st) (DB_URL st)
            (DB_DATABASE st) (DB_USER st) v (AUTOCONTROL_DURATION_MS st)
        else if String.eqb id StrAUTOCONTROL_DURATION_MS then
          mkState c (SPIDER_REST_URL st) (DRAGONFLY_REST_URL st) (DB_URL st)
            (DB_DATABASE st) (DB_USER st) (DB_PASSWORD st) v
        else st)
  end.

(** The result of [UpdateEnv] is dropped by [UpdateConfig]; the read back
    after [Put] only feeds the log lines, and dereferences the entry. *)
Definition UpdateConfig (u : ConfigReq.t) (st : State)
  : outcome (ConfigInfo.t * option error * State) :=
  let content := ConfigInfo.mk (ConfigReq.Name u) (ConfigReq.Name u) (ConfigReq.Value u) in
  let key := "/config/" +:+ ConfigInfo.Id content in
  let val := Marshal content in
  match Put key val st with
  | (Some e, st1) => Returns (content, Some e, st1)
  | (None, st1) =>
      match Get key st1 with
      | (None, _) => Panics
      | (Some _, _) =>
          match UpdateEnv (ConfigInfo.Id content) st1 with
          | Panics => Panics
          | Returns (_, st2) => Returns (content, None, st2)
          end
      end
  end.

Fixpoint decodeAll (keyValue : list KeyValue.t) (res : list ConfigInfo.t)
  : option (list ConfigInfo.t) * option error :=
  match keyValue with
  | [] => (Some res, None)
  | v :: rest =>
      match Unmarshal (KeyValue.Value v) ConfigInfo.zero with
      | (_, Some e) => (None, Some e)
      | (tempObj, None) => decodeAll rest (res ++ [tempObj])
      end
  end.

(** The result slice is [None] for Go's nil. *)
Definition ListConfig (st : State) : option (list ConfigInfo.t) * option error :=
  let key := "/config" in
  let '(keyValue, err) := GetList key true st in
  let keyValue := GetChildList keyValue key in
  match err with
  | Some e => (None, Some e)
  | None =>
      match keyValue with
      | [] => (None, None)
      | _ :: _ => decodeAll keyValue []
      end
  end.

End Store.

(** The object [UpdateConfig] builds from its request, and its key. *)
Definition infoOf (u : ConfigReq.t) : ConfigInfo.t :=
  ConfigInfo.mk (ConfigReq.Name u) (ConfigReq.Name u) (ConfigReq.Value u).

Definition keyOf (u : ConfigReq.t) : string := "/config/" +:+ ConfigReq.Name u.

(** Every entry directly below [/config] is the JSON of a ConfigInfo. *)
Definition configTreeDecodes (st : State) : Prop :=
  forall k d, CBStore st !! k = Some d -> isChild "/config" k = true ->
    exists c, d = DocConfig c.

Definition emptyState : State := mkState ∅ "" "" "" "" "" "" "".

(** A store that already holds one setting, and the update of scenario S5. *)
Definition sampleState : State :=
  mkState {[ "/config/DB_URL" := DocConfig (ConfigInfo.mk "DB_URL" "DB_URL" "localhost:3306") ]}
    "http://localhost:1024/spider" "http://localhost:9090/dragonfly" "localhost:3306"
    "cb_tumblebug" "cb_tumblebug" "cb_tumblebug" "10000".

Definition sampleUpdate : ConfigReq.t := ConfigReq.mk "SPIDER_REST_URL" "http://x:1".

(** [strings.TrimPrefix(s, prefix)]: [s] without the leading [prefix], or
    [s] itself when it does not start with [prefix]. *)
Definition TrimPrefix (s prefix : string) : string :=
  match strip_prefix prefix s with
  | Some rest => rest
  | None => s
  end.

Section Maintenance.
Variable F : Faults.

(** The failures of [CBStore.Delete], by key. *)
Variable D : string -> option string.

(** Modelled from the spec: [Delete(k)] of the key/value store contract. *)
Definition Delete (key : string) (st : State) : option error * State :=
  match D key with
  | Some m => (Some (StoreError m), st)
  | None => (None, with_store (delete key (CBStore st)) st)
  end.

(** ListConfigId: the error of [GetList] is dropped; the result is Go's nil
    slice when nothing is listed, here the empty list. *)
Definition ListConfigId (st : State) : list string :=
  let key := "/config" in
  let '(keyValue, _) := GetList F key true st in
  fold_left
    (fun configList v => configList ++ [TrimPrefix (KeyValue.Key v) "/config/"])
    keyValue [].

(** DelAllConfig, the loop over the listed entries: it stops at the first
    delete that fails. *)
Fixpoint deleteEach (keyValue : list KeyValue.t) (st : State) : option error * State :=
  match keyValue with
  | [] => (None, st)
  | v :: rest =>
      match Delete (KeyValue.Key v) st with
      | (Some e, st1) => (Some e, st1)
      | (None, st1) => deleteEach rest st1
      end
  end.

Definition DelAllConfig (st : State) : option error * State :=
  let key := "/config" in
  let '(keyValue, _) := GetList F key true st in
  if (length keyValue =? 0)%nat then (None, st) else deleteEach keyValue st.

End Maintenance.

(** A store with settings, a nested key and a key outside [/config]. *)
Definition mixedState : State :=
  mkState
    (<["/config/DB_URL" := DocConfig (ConfigInfo.mk "DB_URL" "DB_URL" "localhost:3306")]>
       (<["/config/feature/beta" := DocRaw "on"]>
          (<["/ns/ns01" := DocRaw "ns01"]> ∅)))
    "http://localhost:1024/spider" "http://localhost:9090/dragonfly" "localhost:3306"
    "cb_tumblebug" "cb_tumblebug" "cb_tumblebug" "10000".


(** [sampleState] after [sampleUpdate]. *)
Definition updatedSample : State :=
  mkState
    (<["/config/SPIDER_REST_URL" := DocConfig (infoOf sampleUpdate)]> (CBStore sampleState))
    "http://x:1" "http://localhost:9090/dragonfly" "localhost:3306"
    "cb_tumblebug" "cb_tumblebug" "cb_tumblebug" "10000".

(** A store in which one setting is a JSON object whose value is a number
    (the quotes of the JSON text are left out). *)
Definition mistypedState : State :=
  mkState
    {[ "/config/DB_USER" :=
         DocMistyped "{id:DB_USER,name:DB_USER,value:42}" (Some "DB_USER") (Some "DB_USER")
           None ]}
    "" "" "" "" "" "" "".




Definition listDown : Faults :=
  mkFaults (fun _ _ => None) (fun _ => None) (fun _ => Some "store: list failed").

Definition writeDown : Faults :=
  mkFaults (fun _ _ => Some "store: put failed") (fun _ => None) (fun _ => None).

End Config.

(** ** Package resource: vNet creation *)

Module VNet.

(** A Go slice: [None] is the nil slice (JSON [null]), [Some []] the empty,
    non-nil slice (JSON [[]]). *)
Definition slice (A : Type) : Type := option (list A).
Definition elems {A : Type} (s : slice A) : list A := default [] s.
Definition append {A : Type} (s : slice A) (x : A) : slice A := Some (elems s ++ [x]).

(** common.KeyValue *)
Module KeyValue.
Record t := mk { Key : string; Value : string }.
End KeyValue.

(** common.IID: {NameId, SystemId} *)
Module IID.
Record t := mk { NameId : string; SystemId : string }.
End IID.

(** SpiderSubnetReqInfo: JSON body of 'Create subnet request' *)
Module SpiderSubnetReqInfo.
Record t := mk {
  Name : string;
  IPv4_CIDR : string;
  KeyValueList : slice KeyValue.t
}.
End SpiderSubnetReqInfo.

(** SpiderVPCReqInfo: JSON body of 'Create VPC request' *)
Module SpiderVPCReqInfo.
Record t := mk {
  Name : string;
  IPv4_CIDR : string;
  SubnetInfoList : slice SpiderSubnetReqInfo.t;
  CSPId : string
}.
End SpiderVPCReqInfo.

Module SpiderVPCReqInfoWrapper.
Record t := mk {
  ConnectionName : string;
  ReqInfo : SpiderVPCReqInfo.t
}.
End SpiderVPCReqInfoWrapper.

(** SpiderSubnetInfo: subnet information of the driver's response *)
Module SpiderSubnetInfo.
Record t := mk {
  IId : IID.t;
  Zone : string;
  IPv4_CIDR : string;
  TagList : slice KeyValue.t;
  KeyValueList : slice KeyValue.t
}.
End SpiderSubnetInfo.

(** SpiderVPCInfo: VPC information of the driver's response *)
Module SpiderVPCInfo.
Record t := mk {
  IId : IID.t;
  IPv4_CIDR : string;
  SubnetInfoList : slice SpiderSubnetInfo.t;
  TagList : slice KeyValue.t;
  KeyValueList : slice KeyValue.t
}.
End SpiderVPCInfo.

(** TbSubnetReq *)
Module TbSubnetReq.
Record t := mk {
  Name : string;
  IdFromCsp : string;
  IPv4_CIDR : string;
  Zone : string;
  KeyValueList : slice KeyValue.t;
  Description : string
}.
End TbSubnetReq.

(** TbVNetReq: 'Create vNet' request *)
Module TbVNetReq.
Record t := mk {
  Name : string;
  ConnectionName : string;
  CidrBlock : string;
  SubnetInfoList : slice TbSubnetReq.t;
  Description : string;
  CspVNetId : string
}.
End TbVNetReq.

(** model.TbSubnetInfo is declared in package model; it is the
    element type of [TbVNetInfo.SubnetInfoList], which [CreateVNet] leaves
    nil.  The fields are those of the request plus the id. *)
Module TbSubnetInfo.
Record t := mk {
  Id : string;
  Name : string;
  IdFromCsp : string;
  IPv4_CIDR : string;
  Zone : string;
  KeyValueList : slice KeyValue.t;
  Description : string
}.
End TbSubnetInfo.

(** TbVNetInfo: the TB vNet object ([Uuid] is the field that [CreateVNet]
    assigns next to [Id] and [Name]). *)
Module TbVNetInfo.
Record t := mk {
  Id : string;
  Name : string;
  Uuid : string;
  ConnectionName : string;
  CidrBlock : string;
  SubnetInfoList : slice TbSubnetInfo.t;
  Description : string;
  CspVNetId : string;
  CspVNetName : string;
  Status : string;
  KeyValueList : slice KeyValue.t;
  AssociatedObjectList : slice string;
  IsAutoGenerated : bool;
  SystemLabel : string
}.
(** [model.TbVNetInfo{}] *)
Definition zero : t := mk "" "" "" "" "" None "" "" "" "" None None false "".
End TbVNetInfo.

(** One entry of [validator.ValidationErrors]: the failing struct field and
    the tag that failed ("required", or the text of the [CheckString] error
    reported by the struct-level validation). *)
Inductive Tag := TagRequired | TagCheckString.

Module FieldError.
Record t := mk { Value : string; Field : string; StructField : string; Tag : Tag }.
End FieldError.

(** Go errors, by the call that produced them. *)
Inductive error :=
| CheckStringError (name : string)
| ValidationErrors (fes : list FieldError.t)
| AlreadyExists (name : string)
| ExistenceCheckFailed (name : string)
| DriverError (msg : string)
| KvError (msg : string)
| LabelError (msg : string).

(** [err.Error()] for the errors built by [CreateVNet] itself. *)
Definition Error (e : error) : option string :=
  match e with
  | AlreadyExists name => Some ("The vNet " +:+ name +:+ " already exists.")
  | ExistenceCheckFailed name =>
      Some ("Failed to check the existence of the vNet " +:+ name +:+ ".")
  | _ => None
  end.

(** Modelled from the spec: the error taxonomy exposed to API clients
    ([Validation]: malformed or missing fields; [AlreadyExists]: duplicate
    id on Create; [DriverError]: upstream driver failure; [Internal]: KV or
    serialization failure).  The code returns plain errors. *)
Inductive ErrorKind := Validation | AlreadyExistsKind | DriverErrorKind | Internal.

Definition kindOf (e : error) : ErrorKind :=
  match e with
  | CheckStringError _ | ValidationErrors _ => Validation
  | AlreadyExists _ => AlreadyExistsKind
  | DriverError _ => DriverErrorKind
  | ExistenceCheckFailed _ | KvError _ | LabelError _ => Internal
  end.

(** The label entry of a resource.
    Modelled from the spec: the label index maps [/label/{kind}/{uuid}] to
    the primary key and the labels (the creation time is left out). *)
Module LabelInfo.
Record t := mk { ResourceKey : string; Labels : list (string * string) }.
End LabelInfo.

(** A document of the store: the JSON of a vNet object, a label entry, or
    any other text. *)
Inductive Doc :=
| DocVNet (v : TbVNetInfo.t)
| DocLabel (l : LabelInfo.t)
| DocOther (s : string).

(** kvstore.KeyValue; the zero value has the empty text. *)
Module KvEntry.
Record t := mk { Key : string; Value : Doc }.
Definition zero : t := mk "" (DocOther "").
End KvEntry.

(** An outbound call to the driver, as handed to
    [common.ExecuteHttpRequest]. *)
Module HttpRequest.
Record t := mk {
  method : string;
  url : string;
  body : SpiderVPCReqInfoWrapper.t
}.
End HttpRequest.

(** What a call leaves behind, in order. *)
Inductive Event :=
| EvHttp (req : HttpRequest.t)
| EvPut (key : string) (val : Doc)
| EvCreateSubnet (nsId vNetId : string) (req : TbSubnetReq.t) (objectOnly : bool)
| EvLabel (kind uid key : string) (labels : list (string * string)).

Record World := mkWorld {
  kv : gmap string Doc;
  uidSeq : nat;
  trace : list Event
}.

(** The collaborators of [CreateVNet] that live outside vnet.go:
    the driver, the uid generator, the failures of the store and of the
    label index, the process-wide driver URL, the length bound of names and
    the effect of [CreateSubnet] on the store.  Whether a read of the store
    fails may depend on what happened so far (the trace), so that the check
    for existence and the read back at the end of [CreateVNet] fail
    independently. *)
Record Env := mkEnv {
  NameMaxLen : nat;
  SpiderRestUrl : string;
  genUid : nat -> string;
  driver : HttpRequest.t -> string + SpiderVPCInfo.t;
  kv_put_err : string -> Doc -> option string;
  kv_get_err : list Event -> string -> option string;
  label_err : string -> option string;
  subnetImpl : string -> string -> TbSubnetReq.t -> bool -> gmap string Doc
               -> gmap string Doc * option string
}.

Definition StrVNet := "vNet".

Definition isNameChar (a : ascii) : bool :=
  let n := nat_of_ascii a in
  (((65 <=? n) && (n <=? 90)) || ((97 <=? n) && (n <=? 122))
   || ((48 <=? n) && (n <=? 57)) || (n =? 45))%nat.

Definition charsetOk (s : string) : bool :=
  forallb isNameChar (list_ascii_of_string s).

Section Registry.
Variable E : Env.

(** Modelled from the spec: common.CheckString, the rule for identifiers: a
    non-empty string over [[A-Za-z0-9-]] of at most N characters. *)
Definition CheckString (name : string) : option error :=
  if String.eqb name "" then Some (CheckStringError name)
  else if negb (charsetOk name) then Some (CheckStringError name)
  else if (NameMaxLen E <? String.length name)%nat then Some (CheckStringError name)
  else None.

(** TbVNetReqStructLevelValidation: the errors it reports. *)
Definition TbVNetReqStructLevelValidation (u : TbVNetReq.t) : list FieldError.t :=
  match CheckString (TbVNetReq.Name u) with
  | Some _ => [FieldError.mk (TbVNetReq.Name u) "name" "Name" TagCheckString]
  | None => []
  end.

(** The [validate:"required"] tag on a string field. *)
Definition required (field : string) (v : string) : list FieldError.t :=
  if String.eqb v "" then [FieldError.mk v field field TagRequired] else [].

(** [validate.Struct(u)] on a TbVNetReq: the tagged fields in declaration
    order ([Name], [ConnectionName]; the other fields carry no validate tag,
    and the subnet list has no [dive]), then the struct-level validation. *)
Definition validate_Struct (u : TbVNetReq.t) : option error :=
  match required "Name" (TbVNetReq.Name u)
        ++ required "ConnectionName" (TbVNetReq.ConnectionName u)
        ++ TbVNetReqStructLevelValidation u with
  | [] => None
  | fes => Some (ValidationErrors fes)
  end.

(** Modelled from the spec: common.GenResourceKey, the key layout
    [/ns/{nsId}/resources/{kind}/{id}]. *)
Definition GenResourceKey (nsId resourceType resourceId : string) : string :=
  "/ns/" +:+ nsId +:+ "/resources/" +:+ resourceType +:+ "/" +:+ resourceId.

(** Modelled from the spec: kvstore.Put and kvstore.GetKv, the store
    contract [Put(k, v)] and [Get(k) -> {key, value} | none]; a missing key
    reads as the zero entry. *)
Definition Put (key : string) (val : Doc) (w : World) : option error * World :=
  match kv_put_err E key val with
  | Some m => (Some (KvError m), w)
  | None => (None, mkWorld (<[key := val]> (kv w)) (uidSeq w) (trace w ++ [EvPut key val]))
  end.

Definition GetKv (key : string) (w : World) : KvEntry.t * option error :=
  match kv_get_err E (trace w) key with
  | Some m => (KvEntry.zero, Some (KvError m))
  | None =>
      match kv w !! key with
      | Some d => (KvEntry.mk key d, None)
      | None => (KvEntry.zero, None)
      end
  end.

(** Modelled from the spec: CheckResource, the existence check at
    [(nsId, kind, id)]. *)
Definition CheckResource (nsId resourceType resourceId : string) (w : World)
  : bool * option error :=
  let key := GenResourceKey nsId resourceType resourceId in
  match kv_get_err E (trace w) key with
  | Some m => (false, Some (KvError m))
  | None => (bool_decide (is_Some (kv w !! key)), None)
  end.

(** common.GenUid: a fresh uid per call. *)
Definition GenUid (w : World) : string * World :=
  (genUid E (uidSeq w), mkWorld (kv w) (S (uidSeq w)) (trace w)).

(** common.ExecuteHttpRequest: the request goes out, the driver answers
    with an error or with the decoded [callResult]. *)
Definition ExecuteHttpRequest (method url : string) (body : SpiderVPCReqInfoWrapper.t)
  (w : World) : (string + SpiderVPCInfo.t) * World :=
  let req := HttpRequest.mk method url body in
  (driver E req, mkWorld (kv w) (uidSeq w) (trace w ++ [EvHttp req])).

(** CreateSubnet(nsId, vNetId, req, objectOnly): the call is recorded, its
    effect on the store is the environment's. *)
Definition CreateSubnet (nsId vNetId : string) (req : TbSubnetReq.t) (objectOnly : bool)
  (w : World) : option string * World :=
  let '(m, err) := subnetImpl E nsId vNetId req objectOnly (kv w) in
  (err, mkWorld m (uidSeq w) (trace w ++ [EvCreateSubnet nsId vNetId req objectOnly])).

(** Modelled from the spec: label.CreateOrUpdateLabel, which writes
    [/label/{kind}/{uuid}] with the primary key and the labels. *)
Definition CreateOrUpdateLabel (kind uid key : string) (labels : list (string * string))
  (w : World) : option error * World :=
  let lkey := "/label/" +:+ kind +:+ "/" +:+ uid in
  match label_err E lkey with
  | Some m => (Some (LabelError m), w)
  | None =>
      (None, mkWorld (<[lkey := DocLabel (LabelInfo.mk key labels)]> (kv w)) (uidSeq w)
               (trace w ++ [EvLabel kind uid key labels]))
  end.

(** [json.Marshal(v)] then [json.Unmarshal] into the other struct copies the
    fields the two structs share by name. *)
Definition toSpiderSubnetReqInfo (v : TbSubnetReq.t) : SpiderSubnetReqInfo.t :=
  SpiderSubnetReqInfo.mk (TbSubnetReq.Name v) (TbSubnetReq.IPv4_CIDR v)
    (TbSubnetReq.KeyValueList v).

Definition toTbSubnetReq (v : SpiderSubnetInfo.t) : TbSubnetReq.t :=
  TbSubnetReq.mk "" "" (SpiderSubnetInfo.IPv4_CIDR v) (SpiderSubnetInfo.Zone v)
    (SpiderSubnetInfo.KeyValueList v) "".

Definition Marshal (content : TbVNetInfo.t) : Doc := DocVNet content.

Definition Unmarshal (d : Doc) (result : TbVNetInfo.t) : TbVNetInfo.t * option string :=
  match d with
  | DocVNet v => (v, None)
  | _ => (result, Some "json: cannot unmarshal")
  end.

(** CreateVNet, the request body: [ReqInfo.Name] is the uid; each subnet of
    the request is converted and keeps the given subnet name. *)
Definition requestBodyOf (u : TbVNetReq.t) (uuid : string) : SpiderVPCReqInfoWrapper.t :=
  let SubnetInfoList :=
    fold_left
      (fun acc v =>
         let spiderSubnetInfo := toSpiderSubnetReqInfo v in
         let spiderSubnetInfo :=
           SpiderSubnetReqInfo.mk (TbSubnetReq.Name v)
             (SpiderSubnetReqInfo.IPv4_CIDR spiderSubnetInfo)
             (SpiderSubnetReqInfo.KeyValueList spiderSubnetInfo) in
         append acc spiderSubnetInfo)
      (elems (TbVNetReq.SubnetInfoList u)) None in
  SpiderVPCReqInfoWrapper.mk (TbVNetReq.ConnectionName u)
    (SpiderVPCReqInfo.mk uuid (TbVNetReq.CidrBlock u) SubnetInfoList
       (TbVNetReq.CspVNetId u)).

(** CreateVNet, the method and the url of the driver call. *)
Definition endpointOf (u : TbVNetReq.t) (option : string) : string * string :=
  if String.eqb option "register" && String.eqb (TbVNetReq.CspVNetId u) "" then
    ("GET", SpiderRestUrl E +:+ "/vpc/" +:+ TbVNetReq.Name u)
  else if String.eqb option "register" && negb (String.eqb (TbVNetReq.CspVNetId u) "") then
    ("POST", SpiderRestUrl E +:+ "/regvpc")
  else
    ("POST", SpiderRestUrl E +:+ "/vpc").

(** CreateVNet, the object built from the request and the driver's answer. *)
Definition contentOf (u : TbVNetReq.t) (option uuid : string)
  (callResult : SpiderVPCInfo.t) : TbVNetInfo.t :=
  {| TbVNetInfo.Id := TbVNetReq.Name u;
     TbVNetInfo.Name := TbVNetReq.Name u;
     TbVNetInfo.Uuid := uuid;
     TbVNetInfo.ConnectionName := TbVNetReq.ConnectionName u;
     TbVNetInfo.CidrBlock := SpiderVPCInfo.IPv4_CIDR callResult;
     TbVNetInfo.SubnetInfoList := None;
     TbVNetInfo.Description := TbVNetReq.Description u;
     TbVNetInfo.CspVNetId := IID.SystemId (SpiderVPCInfo.IId callResult);
     TbVNetInfo.CspVNetName := IID.NameId (SpiderVPCInfo.IId callResult);
     TbVNetInfo.Status := "";
     TbVNetInfo.KeyValueList := SpiderVPCInfo.KeyValueList callResult;
     TbVNetInfo.AssociatedObjectList := Some [];
     TbVNetInfo.IsAutoGenerated := false;
     TbVNetInfo.SystemLabel :=
       if String.eqb option "register" && String.eqb (TbVNetReq.CspVNetId u) "" then
         "Registered from CB-Spider resource"
       else if String.eqb option "register"
               && negb (String.eqb (TbVNetReq.CspVNetId u) "") then
         "Registered from CSP resource"
       else "" |}.

(** CreateVNet, the request handed to [CreateSubnet] for one subnet of the
    driver's answer. *)
Definition subnetReqOf (v : SpiderSubnetInfo.t) : TbSubnetReq.t :=
  let tbSubnetReq := toTbSubnetReq v in
  TbSubnetReq.mk (IID.NameId (SpiderSubnetInfo.IId v))
    (IID.SystemId (SpiderSubnetInfo.IId v))
    (TbSubnetReq.IPv4_CIDR tbSubnetReq) (TbSubnetReq.Zone tbSubnetReq)
    (TbSubnetReq.KeyValueList tbSubnetReq) (TbSubnetReq.Description tbSubnetReq).

(** CreateVNet, the loop over [callResult.SubnetInfoList]; an error of
    [CreateSubnet] is logged and dropped. *)
Fixpoint createSubnets (nsId vNetId : string) (l : list SpiderSubnetInfo.t) (w : World)
  : World :=
  match l with
  | [] => w
  | v :: rest =>
      let '(_, w1) := CreateSubnet nsId vNetId (subnetReqOf v) true w in
      createSubnets nsId vNetId rest w1
  end.

Definition labelsOf (nsId : string) : list (string * string) :=
  [("provider", "cb-tumblebug"); ("namespace", nsId)].

(** CreateVNet accepts vNet creation request, creates and returns an TB
    vNet object. *)
Definition CreateVNet (nsId : string) (u : TbVNetReq.t) (option : string) (w : World)
  : (TbVNetInfo.t * Datatypes.option error) * World :=
  let temp := TbVNetInfo.zero in
  let resourceType := StrVNet in
  match CheckString nsId with
  | Some err => ((temp, Some err), w)
  | None =>
  match validate_Struct u with
  | Some err => ((temp, Some err), w)
  | None =>
  let '(check, err) := CheckResource nsId resourceType (TbVNetReq.Name u) w in
  if check then ((temp, Some (AlreadyExists (TbVNetReq.Name u))), w)
  else
  match err with
  | Some _ => ((temp, Some (ExistenceCheckFailed (TbVNetReq.Name u))), w)
  | None =>
  let '(uuid, w) := GenUid w in
  let requestBody := requestBodyOf u uuid in
  let '(method, url) := endpointOf u option in
  let '(answer, w) := ExecuteHttpRequest method url requestBody w in
  match answer with
  | inl msg => ((temp, Some (DriverError msg)), w)
  | inr callResult =>
  let content := contentOf u option uuid callResult in
  let Key := GenResourceKey nsId StrVNet (TbVNetInfo.Id content) in
  let Val := Marshal content in
  match Put Key Val w with
  | (Some err, w) => ((content, Some err), w)
  | (None, w) =>
  let w := createSubnets nsId (TbVNetInfo.Id content)
             (elems (SpiderVPCInfo.SubnetInfoList callResult)) w in
  let '(keyValue, _) := GetKv Key w in
  let '(result, _) := Unmarshal (KvEntry.Value keyValue) TbVNetInfo.zero in
  match CreateOrUpdateLabel StrVNet uuid Key (labelsOf nsId) w with
  | (Some err, w) => ((content, Some err), w)
  | (None, w) => ((result, None), w)
  end
  end
  end
  end
  end
  end.

(** Modelled from the spec: Get of the Resource Registry for a vNet, the
    decoded entry at [(nsId, vNet, id)]. *)
Definition GetVNet (nsId id : string) (w : World) : option TbVNetInfo.t :=
  match GetKv (GenResourceKey nsId StrVNet id) w with
  | (_, Some _) => None
  | (keyValue, None) =>
      match KvEntry.Value keyValue with
      | DocVNet v => Some v
      | _ => None
      end
  end.

(** Modelled from the spec: the association-blocking rule, an MCIR cannot
    be deleted while its [associatedObjectList] is non-empty. *)
Definition deleteBlocked (v : TbVNetInfo.t) : bool :=
  match elems (TbVNetInfo.AssociatedObjectList v) with
  | [] => false
  | _ :: _ => true
  end.

(** *** The paths through CreateVNet *)

(** The driver request of a call, its key in the store and the key of its
    label entry. *)
Definition requestOf (u : TbVNetReq.t) (option uuid : string) : HttpRequest.t :=
  HttpRequest.mk (endpointOf u option).1 (endpointOf u option).2 (requestBodyOf u uuid).

Definition vNetKey (nsId : string) (u : TbVNetReq.t) : string :=
  GenResourceKey nsId StrVNet (TbVNetReq.Name u).

Definition labelKey (uuid : string) : string := "/label/" +:+ StrVNet +:+ "/" +:+ uuid.

Definition subnetEvents (nsId vNetId : string) (l : list SpiderSubnetInfo.t) : list Event :=
  List.map (fun v => EvCreateSubnet nsId vNetId (subnetReqOf v) true) l.

(** The world after the driver call and after the write of the object. *)
Definition sent (w : World) (req : HttpRequest.t) : World :=
  mkWorld (kv w) (S (uidSeq w)) (trace w ++ [EvHttp req]).

Definition stored (w : World) (req : HttpRequest.t) (key : string) (content : TbVNetInfo.t)
  : World :=
  mkWorld (<[key := DocVNet content]> (kv w)) (S (uidSeq w))
    ((trace w ++ [EvHttp req]) ++ [EvPut key (DocVNet content)]).

(** The object read back from the store at the end of the call. *)
Definition readBack (key : string) (w : World) : TbVNetInfo.t :=
  (Unmarshal (KvEntry.Value (GetKv key w).1) TbVNetInfo.zero).1.

(** One rule per way out of CreateVNet: result, error, final world and the
    events of the call. *)
Inductive Run (nsId : string) (u : TbVNetReq.t) (option : string) (w : World)
  : TbVNetInfo.t -> Datatypes.option error -> World -> list Event -> Prop :=
| RunBadNs e :
    CheckString nsId = Some e ->
    Run nsId u option w TbVNetInfo.zero (Some e) w []
| RunBadReq e :
    CheckString nsId = None -> validate_Struct u = Some e ->
    Run nsId u option w TbVNetInfo.zero (Some e) w []
| RunDuplicate :
    CheckString nsId = None -> validate_Struct u = None ->
    kv_get_err E (trace w) (vNetKey nsId u) = None -> is_Some (kv w !! vNetKey nsId u) ->
    Run nsId u option w TbVNetInfo.zero (Some (AlreadyExists (TbVNetReq.Name u))) w []
| RunCheckFailed m :
    CheckString nsId = None -> validate_Struct u = None ->
    kv_get_err E (trace w) (vNetKey nsId u) = Some m ->
    Run nsId u option w TbVNetInfo.zero
      (Some (ExistenceCheckFailed (TbVNetReq.Name u))) w []
| RunDriverFailed msg :
    let req := requestOf u option (genUid E (uidSeq w)) in
    CheckString nsId = None -> validate_Struct u = None ->
    kv_get_err E (trace w) (vNetKey nsId u) = None -> kv w !! vNetKey nsId u = None ->
    driver E req = inl msg ->
    Run nsId u option w TbVNetInfo.zero (Some (DriverError msg)) (sent w req) [EvHttp req]
| RunPutFailed callResult m :
    let uuid := genUid E (uidSeq w) in
    let req := requestOf u option uuid in
    let content := contentOf u option uuid callResult in
    CheckString nsId = None -> validate_Struct u = None ->
    kv_get_err E (trace w) (vNetKey nsId u) = None -> kv w !! vNetKey nsId u = None ->
    driver E req = inr callResult ->
    kv_put_err E (vNetKey nsId u) (DocVNet content) = Some m ->
    Run nsId u option w content (Some (KvError m)) (sent w req) [EvHttp req]
| RunLabelFailed callResult m :
    let uuid := genUid E (uidSeq w) in
    let req := requestOf u option uuid in
    let content := contentOf u option uuid callResult in
    let key := vNetKey nsId u in
    let ws := createSubnets nsId (TbVNetReq.Name u)
                (elems (SpiderVPCInfo.SubnetInfoList callResult))
                (stored w req key content) in
    CheckString nsId = None -> validate_Struct u = None ->
    kv_get_err E (trace w) key = None -> kv w !! key = None ->
    driver E req = inr callResult ->
    kv_put_err E key (DocVNet content) = None ->
    label_err E (labelKey uuid) = Some m ->
    Run nsId u option w content (Some (LabelError m)) ws
      ([EvHttp req; EvPut key (DocVNet content)]
       ++ subnetEvents nsId (TbVNetReq.Name u)
            (elems (SpiderVPCInfo.SubnetInfoList callResult)))
| RunCreated callResult :
    let uuid := genUid E (uidSeq w) in
    let req := requestOf u option uuid in
    let content := contentOf u option uuid callResult in
    let key := vNetKey nsId u in
    let ws := createSubnets nsId (TbVNetReq.Name u)
                (elems (SpiderVPCInfo.SubnetInfoList callResult))
                (stored w req key content) in
    CheckString nsId = None -> validate_Struct u = None ->
    kv_get_err E (trace w) key = None -> kv w !! key = None ->
    driver E req = inr callResult ->
    kv_put_err E key (DocVNet content) = None ->
    label_err E (labelKey uuid) = None ->
    Run nsId u option w (readBack key ws) None
      (mkWorld (<[labelKey uuid := DocLabel (LabelInfo.mk key (labelsOf nsId))]> (kv ws))
         (uidSeq ws) (trace ws ++ [EvLabel StrVNet uuid key (labelsOf nsId)]))
      ([EvHttp req; EvPut key (DocVNet content)]
       ++ subnetEvents nsId (TbVNetReq.Name u)
            (elems (SpiderVPCInfo.SubnetInfoList callResult))
       ++ [EvLabel StrVNet uuid key (labelsOf nsId)]).

(** The events a call appends to the trace. *)
Definition emitted (nsId : string) (u : TbVNetReq.t) (option : string) (w : World)
  : list Event :=
  drop (length (trace w)) (trace (CreateVNet nsId u option w).2).

(** [CreateSubnet] changes at most the subnet list of a stored vNet. *)
Definition sameButSubnets (v v' : TbVNetInfo.t) : Prop :=
  v' = TbVNetInfo.mk (TbVNetInfo.Id v) (TbVNetInfo.Name v) (TbVNetInfo.Uuid v)
         (TbVNetInfo.ConnectionName v) (TbVNetInfo.CidrBlock v)
         (TbVNetInfo.SubnetInfoList v') (TbVNetInfo.Description v)
         (TbVNetInfo.CspVNetId v) (TbVNetInfo.CspVNetName v) (TbVNetInfo.Status v)
         (TbVNetInfo.KeyValueList v) (TbVNetInfo.AssociatedObjectList v)
         (TbVNetInfo.IsAutoGenerated v) (TbVNetInfo.SystemLabel v).

Definition subnetsKeep : Prop :=
  forall nsId vNetId req objectOnly (m : gmap string Doc) k v,
    m !! k = Some (DocVNet v) ->
    exists v', (subnetImpl E nsId vNetId req objectOnly m).1 !! k = Some (DocVNet v')
               /\ sameButSubnets v v'.

End Registry.

(** The names a driver request carries: the VPC name and the subnet names. *)
Definition handedNames (req : HttpRequest.t) : list string :=
  let info := SpiderVPCReqInfoWrapper.ReqInfo (HttpRequest.body req) in
  SpiderVPCReqInfo.Name info
  :: List.map SpiderSubnetReqInfo.Name (elems (SpiderVPCReqInfo.SubnetInfoList info)).


(** Modelled from the spec: the CIDR syntax that input validation is said to
    check; the spec names the check without defining it, so this is the
    usual IPv4 form, four decimal octets, a slash, a prefix length up to 32. *)
Fixpoint splitOn (c : ascii) (s : string) : list string :=
  match s with
  | EmptyString => [EmptyString]
  | String a s' =>
      if Ascii.eqb a c then EmptyString :: splitOn c s'
      else
        match splitOn c s' with
        | [] => [String a EmptyString]
        | h :: t => String a h :: t
        end
  end.

Fixpoint decimalValue (s : string) (acc : nat) : option nat :=
  match s with
  | EmptyString => Some acc
  | String a s' =>
      let n := nat_of_ascii a in
      if ((48 <=? n) && (n <=? 57))%nat then decimalValue s' (10 * acc + (n - 48))
      else None
  end.

Definition numberUpTo (bound : nat) (s : string) : bool :=
  match s with
  | EmptyString => false
  | _ =>
      (String.length s <=? 3)%nat
      && match decimalValue s 0 with
         | Some n => (n <=? bound)%nat
         | None => false
         end
  end.

Definition cidrSyntaxOk (s : string) : bool :=
  match splitOn "/" s with
  | [addr; len] =>
      match splitOn "." addr with
      | [a; b; c; d] =>
          numberUpTo 255 a && numberUpTo 255 b && numberUpTo 255 c && numberUpTo 255 d
      | _ => false
      end
      && numberUpTo 32 len
  | _ => false
  end.

(** *** A concrete environment

    A driver that answers every request with one VPC holding one subnet, a
    store without failures, and a [CreateSubnet] that appends the subnet to
    its parent vNet object. *)
Definition demoSubnet : SpiderSubnetInfo.t :=
  SpiderSubnetInfo.mk (IID.mk "subnet-a" "subnet-0f3c21") "ap-northeast-2a"
    "10.0.1.0/24" None None.

Definition demoVPC : SpiderVPCInfo.t :=
  SpiderVPCInfo.mk (IID.mk "uid-a" "vpc-0a1b2c") "10.0.0.0/16" (Some [demoSubnet])
    None None.

Definition demoSubnetImpl (nsId vNetId : string) (req : TbSubnetReq.t) (objectOnly : bool)
  (m : gmap string Doc) : gmap string Doc * option string :=
  let vNetKey := GenResourceKey nsId StrVNet vNetId in
  match m !! vNetKey with
  | Some (DocVNet v) =>
      let info :=
        TbSubnetInfo.mk (TbSubnetReq.Name req) (TbSubnetReq.Name req)
          (TbSubnetReq.IdFromCsp req) (TbSubnetReq.IPv4_CIDR req) (TbSubnetReq.Zone req)
          (TbSubnetReq.KeyValueList req) (TbSubnetReq.Description req) in
      let v' :=
        TbVNetInfo.mk (TbVNetInfo.Id v) (TbVNetInfo.Name v) (TbVNetInfo.Uuid v)
          (TbVNetInfo.ConnectionName v) (TbVNetInfo.CidrBlock v)
          (append (TbVNetInfo.SubnetInfoList v) info) (TbVNetInfo.Description v)
          (TbVNetInfo.CspVNetId v) (TbVNetInfo.CspVNetName v) (TbVNetInfo.Status v)
          (TbVNetInfo.KeyValueList v) (TbVNetInfo.AssociatedObjectList v)
          (TbVNetInfo.IsAutoGenerated v) (TbVNetInfo.SystemLabel v) in
      (<[vNetKey := DocVNet v']> m, None)
  | _ => (m, Some "the parent vNet does not exist")
  end.

Definition demoUid (n : nat) : string :=
  "uid-" +:+ String (ascii_of_nat (97 + n)) EmptyString.

Definition envWith (drv : HttpRequest.t -> string + SpiderVPCInfo.t)
  (putErr : string -> Doc -> option string) : Env :=
  mkEnv 255 "http://localhost:1024/spider" demoUid drv putErr
    (fun _ _ => None) (fun _ => None) demoSubnetImpl.

Definition demoEnv : Env := envWith (fun _ => inr demoVPC) (fun _ _ => None).

Definition driverDownEnv : Env :=
  envWith (fun _ => inl "connection refused") (fun _ _ => None).

Definition storeDownEnv : Env :=
  envWith (fun _ => inr demoVPC) (fun _ _ => Some "kvstore: put failed").

Definition emptyWorld : World := mkWorld ∅ 0 [].

Definition demoReq : TbVNetReq.t :=
  TbVNetReq.mk "vnet01" "aws-ap-northeast-2" "10.0.0.5/16"
    (Some [TbSubnetReq.mk "subnet-a" "" "10.0.1.0/24" "" None ""])
    "tenant network" "".

(** Registration of a VPC that the driver already knows by name. *)
Definition registerReq : TbVNetReq.t :=
  TbVNetReq.mk "vnet01" "aws-ap-northeast-2" "" None "existing network" "".

Definition badCidrReq : TbVNetReq.t :=
  TbVNetReq.mk "vnet01" "aws-ap-northeast-2" "not-a-cidr" None "tenant network" "".

(** TbSubnetReqStructLevelValidation: the errors it reports. *)
Definition TbSubnetReqStructLevelValidation (E : Env) (u : TbSubnetReq.t)
  : list FieldError.t :=
  match CheckString E (TbSubnetReq.Name u) with
  | Some _ => [FieldError.mk (TbSubnetReq.Name u) "name" "Name" TagCheckString]
  | None => []
  end.

Definition isHttp (ev : Event) : bool :=
  match ev with
  | EvHttp _ => true
  | _ => false
  end.

(** Environments in which one collaborator is down: the label index, every
    read of the store, the reads of the store after the first event. *)
Definition labelDownEnv : Env :=
  mkEnv 255 "http://localhost:1024/spider" demoUid (fun _ => inr demoVPC)
    (fun _ _ => None) (fun _ _ => None) (fun _ => Some "label: put failed")
    demoSubnetImpl.

Definition checkDownEnv : Env :=
  mkEnv 255 "http://localhost:1024/spider" demoUid (fun _ => inr demoVPC)
    (fun _ _ => None) (fun _ _ => Some "kvstore: get failed") (fun _ => None)
    demoSubnetImpl.

Definition readBackDownEnv : Env :=
  mkEnv 255 "http://localhost:1024/spider" demoUid (fun _ => inr demoVPC)
    (fun _ _ => None)
    (fun h _ => match h with [] => None | _ :: _ => Some "kvstore: get failed" end)
    (fun _ => None) demoSubnetImpl.



(** Registration of a VPC by its CSP id. *)
Definition registerCspReq : TbVNetReq.t :=
  TbVNetReq.mk "vnet01" "aws-ap-northeast-2" "" None "existing network" "vpc-0a1b2c".

End VNet.

(** * Properties of the config store *)

Section ConfigFacts.
Import Config.
Variable F : Faults.

Lemma Get_inserted key d m st :
  get_err F key = None ->
  Get F key (with_store (<[key := d]> m) st) = (Some (KeyValue.mk key d), None).
Proof.
  intros Hg. unfold Get. rewrite Hg. cbn. by rewrite lookup_insert_eq.
Qed.

Lemma CheckConfig_inserted id d m st :
  id <> "" -> get_err F ("/config/" +:+ id) = None ->
  CheckConfig F id (with_store (<["/config/" +:+ id := d]> m) st) = (true, None).
Proof.
  intros Hid Hg. unfold CheckConfig.
  destruct (String.eqb_spec id "") as [->|_]; [done|].
  by rewrite Get_inserted.
Qed.

Lemma GetConfig_inserted id c m st :
  id <> "" -> get_err F ("/config/" +:+ id) = None ->
  GetConfig F id (with_store (<["/config/" +:+ id := DocConfig c]> m) st)
  = Returns (c, None).
Proof.
  intros Hid Hg. unfold GetConfig.
  rewrite CheckConfig_inserted by done. cbn.
  by rewrite Get_inserted.
Qed.

Lemma GetConfig_empty_id st :
  exists e, GetConfig F "" st = Returns (ConfigInfo.zero, Some e).
Proof. eexists. reflexivity. Qed.

Lemma allowList_nonempty id : In id allowList -> id <> "".
Proof.
  intros Hin ->. cbn in Hin. intuition discriminate.
Qed.

Lemma allowList_child id : In id allowList -> isChild "/config" ("/config/" +:+ id) = true.
Proof.
  intros Hin. cbn in Hin.
  repeat (destruct Hin as [<-|Hin]; [reflexivity|]). destruct Hin.
Qed.

Lemma decodeAll_decoded (l : list KeyValue.t) (acc : list ConfigInfo.t) :
  Forall (fun kv => exists c, KeyValue.Value kv = DocConfig c) l ->
  decodeAll l acc
  = (Some (acc ++ List.map (fun kv => (Unmarshal (KeyValue.Value kv) ConfigInfo.zero).1) l),
     None).
Proof.
  revert acc. induction l as [|kv l IH]; intros acc Hall; cbn.
  - by rewrite app_nil_r.
  - inversion Hall as [|? ? [c Hc] Hl]; subst.
    rewrite Hc. cbn. rewrite IH by done. by rewrite <- app_assoc.
Qed.

(** The children of [/config] that [ListConfig] decodes. *)
Lemma children_inserted key c m st :
  String.prefix "/config" key = true -> isChild "/config" key = true ->
  list_err F "/config" = None ->
  In (KeyValue.mk key (DocConfig c))
    (GetChildList (GetList F "/config" true (with_store (<[key := DocConfig c]> m) st)).1
       "/config").
Proof.
  intros Hp Hc Hl. unfold GetChildList, GetList. rewrite Hl. cbn [fst].
  apply filter_In. split; [|exact Hc].
  apply in_map_iff. exists (key, DocConfig c). split; [done|].
  apply filter_In. split; [|exact Hp].
  apply list_elem_of_In, elem_of_map_to_list. cbn. apply lookup_insert_eq.
Qed.

Lemma children_decode key c st :
  configTreeDecodes st ->
  Forall (fun kv => exists c', KeyValue.Value kv = DocConfig c')
    (GetChildList
       (GetList F "/config" true (with_store (<[key := DocConfig c]> (CBStore st)) st)).1
       "/config").
Proof.
  intros Hwf. apply Forall_forall. intros kv Hin%list_elem_of_In.
  unfold GetChildList in Hin. apply filter_In in Hin as [Hin Hchild].
  unfold GetList in Hin. destruct (list_err F "/config"); [destruct Hin|].
  cbn [fst] in Hin. apply in_map_iff in Hin as [[k d] [<- Hin]].
  apply filter_In in Hin as [Hin _].
  apply list_elem_of_In, elem_of_map_to_list in Hin. cbn in Hin, Hchild |- *.
  destruct (decide (key = k)) as [->|Hne].
  - rewrite lookup_insert_eq in Hin. inversion Hin. eauto.
  - rewrite lookup_insert_ne in Hin by done. eapply Hwf; eauto.
Qed.

Lemma UpdateEnv_unlisted id c m st :
  ~ In id allowList -> id <> "" -> get_err F ("/config/" +:+ id) = None ->
  let st1 := with_store (<["/config/" +:+ id := DocConfig c]> m) st in
  UpdateEnv F id st1 = Returns (None, st1).
Proof.
  intros Hni Hid Hg st1. unfold UpdateEnv. subst st1.
  rewrite GetConfig_inserted by done.
  cbn in Hni.
  repeat match goal with
  | |- context [String.eqb id ?k] =>
      destruct (String.eqb_spec id k) as [->|_]; [exfalso; apply Hni; tauto|]
  end.
  reflexivity.
Qed.

Lemma UpdateEnv_listed id c m st :
  In id allowList -> get_err F ("/config/" +:+ id) = None ->
  exists st2,
    UpdateEnv F id (with_store (<["/config/" +:+ id := DocConfig c]> m) st)
    = Returns (None, st2)
    /\ CBStore st2 = <["/config/" +:+ id := DocConfig c]> m
    /\ mirror id st2 = Some (ConfigInfo.Value c).
Proof.
  intros Hin Hg. unfold UpdateEnv.
  rewrite GetConfig_inserted by eauto using allowList_nonempty.
  cbn in Hin.
  repeat (destruct Hin as [<-|Hin]; [eexists; split; [reflexivity|split; reflexivity]|]).
  destruct Hin.
Qed.

End ConfigFacts.

(** C4, as stated, fails: the key [FOO] is outside the allow-list, yet
    [UpdateConfig] returns no error and the pair is stored at
    [/config/FOO]. *)
Lemma UpdateConfig_unknown_key_is_stored :
  ~ In "FOO" Config.allowList
  /\ exists st',
       Config.UpdateConfig Config.noFaults (Config.ConfigReq.mk "FOO" "bar")
         Config.emptyState
       = Config.Returns (Config.ConfigInfo.mk "FOO" "FOO" "bar", None, st')
       /\ Config.CBStore st' !! "/config/FOO"
          = Some (Config.DocConfig (Config.ConfigInfo.mk "FOO" "FOO" "bar")).
Proof.
  split.
  - cbn. intuition discriminate.
  - eexists. split; [reflexivity|]. vm_compute. reflexivity.
Qed.

(** C4, amended: for a key outside the allow-list, when the write to the
    store and the read back succeed, [UpdateConfig] accepts the update: it
    returns the object without an error, the pair is stored at
    [/config/{name}], and none of the in-process mirror variables changes. *)
Theorem UpdateConfig_unlisted_key
  (F : Config.Faults) (u : Config.ConfigReq.t) (st : Config.State) :
  ~ In (Config.ConfigReq.Name u) Config.allowList ->
  Config.put_err F (Config.keyOf u) (Config.DocConfig (Config.infoOf u)) = None ->
  Config.get_err F (Config.keyOf u) = None ->
  exists st',
    Config.UpdateConfig F u st = Config.Returns (Config.infoOf u, None, st')
    /\ Config.CBStore st'
       = <[Config.keyOf u := Config.DocConfig (Config.infoOf u)]> (Config.CBStore st)
    /\ Config.mirrors st' = Config.mirrors st.
Proof.
  intros Hni Hput Hget.
  exists (Config.with_store
            (<[Config.keyOf u := Config.DocConfig (Config.infoOf u)]> (Config.CBStore st)) st).
  split; [|split; reflexivity].
  unfold Config.UpdateConfig, Config.Put, Config.Marshal.
  change (Config.ConfigInfo.mk (Config.ConfigReq.Name u) (Config.ConfigReq.Name u)
            (Config.ConfigReq.Value u)) with (Config.infoOf u).
  change ("/config/" +:+ Config.ConfigInfo.Id (Config.infoOf u)) with (Config.keyOf u).
  rewrite Hput. rewrite Get_inserted by done.
  change (Config.ConfigInfo.Id (Config.infoOf u)) with (Config.ConfigReq.Name u).
  destruct (String.eqb_spec (Config.ConfigReq.Name u) "") as [Hempty|Hne].
  - unfold Config.keyOf. rewrite Hempty. reflexivity.
  - unfold Config.keyOf in *. by rewrite UpdateEnv_unlisted.
Qed.

Lemma UpdateConfig_unlisted_key_witness :
  exists st',
    Config.UpdateConfig Config.noFaults (Config.ConfigReq.mk "LOG_LEVEL" "debug")
      Config.emptyState
    = Config.Returns (Config.ConfigInfo.mk "LOG_LEVEL" "LOG_LEVEL" "debug", None, st')
    /\ Config.CBStore st'
       = <["/config/LOG_LEVEL" :=
             Config.DocConfig (Config.ConfigInfo.mk "LOG_LEVEL" "LOG_LEVEL" "debug")]> ∅
    /\ Config.mirrors st' = Config.mirrors Config.emptyState.
Proof.
  apply (UpdateConfig_unlisted_key Config.noFaults
           (Config.ConfigReq.mk "LOG_LEVEL" "debug") Config.emptyState).
  - cbn. intuition discriminate.
  - reflexivity.
  - reflexivity.
Defined.

(** C6: for an allow-listed name, with the store answering, [UpdateConfig]
    stores the pair at [/config/{name}], so that [GetConfig] returns it and
    [ListConfig] lists it, and the mirror variable of the key holds the new
    value when the call returns. *)
Theorem UpdateConfig_allowed_key
  (F : Config.Faults) (u : Config.ConfigReq.t) (st : Config.State) :
  In (Config.ConfigReq.Name u) Config.allowList ->
  Config.put_err F (Config.keyOf u) (Config.DocConfig (Config.infoOf u)) = None ->
  Config.get_err F (Config.keyOf u) = None ->
  Config.list_err F "/config" = None ->
  Config.configTreeDecodes st ->
  exists st',
    Config.UpdateConfig F u st = Config.Returns (Config.infoOf u, None, st')
    /\ Config.CBStore st' !! Config.keyOf u = Some (Config.DocConfig (Config.infoOf u))
    /\ Config.GetConfig F (Config.ConfigReq.Name u) st'
       = Config.Returns (Config.infoOf u, None)
    /\ Config.mirror (Config.ConfigReq.Name u) st' = Some (Config.ConfigReq.Value u)
    /\ exists l, Config.ListConfig F st' = (Some l, None) /\ In (Config.infoOf u) l.
Proof.
  intros Hin Hput Hget Hlist Hwf.
  destruct (UpdateEnv_listed F (Config.ConfigReq.Name u) (Config.infoOf u)
              (Config.CBStore st) st Hin Hget) as (st2 & Henv & Hstore & Hmirror).
  assert (Hst2 : st2 = Config.with_store
                         (<[Config.keyOf u := Config.DocConfig (Config.infoOf u)]>
                            (Config.CBStore st)) st2).
  { destruct st2; cbn in Hstore; subst; reflexivity. }
  exists st2. split; [|split; [|split; [|split]]].
  - unfold Config.UpdateConfig, Config.Put, Config.Marshal.
    change (Config.ConfigInfo.mk (Config.ConfigReq.Name u) (Config.ConfigReq.Name u)
              (Config.ConfigReq.Value u)) with (Config.infoOf u).
    change ("/config/" +:+ Config.ConfigInfo.Id (Config.infoOf u)) with (Config.keyOf u).
    rewrite Hput. rewrite Get_inserted by done.
    change (Config.ConfigInfo.Id (Config.infoOf u)) with (Config.ConfigReq.Name u).
    unfold Config.keyOf. by rewrite Henv.
  - rewrite Hstore. apply lookup_insert_eq.
  - rewrite Hst2. unfold Config.keyOf.
    apply GetConfig_inserted; [by apply allowList_nonempty|done].
  - exact Hmirror.
  - rewrite Hst2.
    pose proof (children_inserted F (Config.keyOf u) (Config.infoOf u)
                  (Config.CBStore st) st2) as Hmem.
    pose proof (children_decode F (Config.keyOf u) (Config.infoOf u) st Hwf) as Hdec.
    assert (Hchild : Config.isChild "/config" (Config.keyOf u) = true)
      by (by apply allowList_child).
    specialize (Hmem eq_refl Hchild Hlist).
    unfold Config.ListConfig.
    assert (Hsame : forall s1 s2,
      Config.GetList F "/config" true (Config.with_store (<[Config.keyOf u :=
         Config.DocConfig (Config.infoOf u)]> (Config.CBStore st)) s1)
      = Config.GetList F "/config" true (Config.with_store (<[Config.keyOf u :=
         Config.DocConfig (Config.infoOf u)]> (Config.CBStore st)) s2)) by reflexivity.
    rewrite (Hsame st st2) in Hdec.
    destruct (Config.GetList F "/config" true _) as [keyValue err] eqn:Hgl.
    assert (err = None) as ->.
    { unfold Config.GetList in Hgl. rewrite Hlist in Hgl. by inversion Hgl. }
    cbn [fst] in Hmem, Hdec.
    destruct (Config.GetChildList keyValue "/config") as [|kv0 rest] eqn:Hcl;
      [destruct Hmem|].
    rewrite decodeAll_decoded by exact Hdec. eexists. split; [reflexivity|].
    cbn [app]. apply in_map_iff.
    exists (Config.KeyValue.mk (Config.keyOf u) (Config.DocConfig (Config.infoOf u))).
    split; [reflexivity|exact Hmem].
Qed.

Lemma UpdateConfig_allowed_key_witness :
  exists st',
    Config.UpdateConfig Config.noFaults Config.sampleUpdate Config.sampleState
    = Config.Returns (Config.infoOf Config.sampleUpdate, None, st')
    /\ Config.CBStore st' !! "/config/SPIDER_REST_URL"
       = Some (Config.DocConfig
                 (Config.ConfigInfo.mk "SPIDER_REST_URL" "SPIDER_REST_URL" "http://x:1"))
    /\ Config.GetConfig Config.noFaults "SPIDER_REST_URL" st'
       = Config.Returns (Config.infoOf Config.sampleUpdate, None)
    /\ Config.mirror "SPIDER_REST_URL" st' = Some "http://x:1"
    /\ exists l, Config.ListConfig Config.noFaults st' = (Some l, None)
                 /\ In (Config.infoOf Config.sampleUpdate) l.
Proof.
  apply (UpdateConfig_allowed_key Config.noFaults Config.sampleUpdate Config.sampleState).
  - cbn. tauto.
  - reflexivity.
  - reflexivity.
  - reflexivity.
  - intros k d Hk _. cbn in Hk.
    apply lookup_singleton_Some in Hk as [_ <-]. eauto.
Defined.

(** * Properties of CreateVNet *)

Section VNetFacts.
Import VNet.
Variable E : Env.

Lemma createSubnets_trace nsId vNetId l w :
  trace (createSubnets E nsId vNetId l w) = trace w ++ subnetEvents nsId vNetId l.
Proof.
  revert w. induction l as [|v l IH]; intros w; cbn.
  - by rewrite app_nil_r.
  - unfold CreateSubnet. destruct (subnetImpl E _ _ _ _ _) as [m err].
    rewrite IH. cbn. by rewrite <- app_assoc.
Qed.

Lemma createSubnets_uidSeq nsId vNetId l w :
  uidSeq (createSubnets E nsId vNetId l w) = uidSeq w.
Proof.
  revert w. induction l as [|v l IH]; intros w; cbn; [done|].
  unfold CreateSubnet. destruct (subnetImpl E _ _ _ _ _) as [m err].
  by rewrite IH.
Qed.

(** With [subnetsKeep], the loop over the subnets leaves a stored vNet in
    place, up to its subnet list. *)
Lemma createSubnets_keep nsId vNetId l w k v :
  subnetsKeep E ->
  kv w !! k = Some (DocVNet v) ->
  exists v', kv (createSubnets E nsId vNetId l w) !! k = Some (DocVNet v')
             /\ sameButSubnets v v'.
Proof.
  intros Hkeep. revert w v. induction l as [|s l IH]; intros w v Hk; cbn.
  - exists v. split; [done|]. by destruct v.
  - unfold CreateSubnet.
    destruct (Hkeep nsId vNetId (subnetReqOf s) true (kv w) k v Hk) as (v1 & Hk1 & Hs1).
    destruct (subnetImpl E _ _ _ _ _) as [m err]. cbn in Hk1.
    destruct (IH (mkWorld m (uidSeq w)
                    (trace w ++ [EvCreateSubnet nsId vNetId (subnetReqOf s) true])) v1 Hk1)
      as (v2 & Hk2 & Hs2).
    exists v2. split; [done|].
    unfold sameButSubnets in *. rewrite Hs2, Hs1. reflexivity.
Qed.

Lemma CheckString_Validation name e :
  CheckString E name = Some e -> kindOf e = Validation.
Proof.
  unfold CheckString. intros H.
  repeat case_match; simplify_eq; reflexivity.
Qed.

Lemma validate_Struct_Validation u e :
  validate_Struct E u = Some e -> kindOf e = Validation.
Proof.
  unfold validate_Struct. intros H. case_match; simplify_eq; reflexivity.
Qed.

(** Every call follows one of the rules. *)
Lemma CreateVNet_Run_ex nsId u option w :
  exists evs,
    Run E nsId u option w (CreateVNet E nsId u option w).1.1
      (CreateVNet E nsId u option w).1.2 (CreateVNet E nsId u option w).2 evs.
Proof.
  unfold CreateVNet.
  destruct (CheckString E nsId) as [e|] eqn:Hns.
  { eexists. cbn. by apply RunBadNs. }
  destruct (validate_Struct E u) as [e|] eqn:Hreq.
  { eexists. cbn. by apply RunBadReq. }
  unfold CheckResource. fold (vNetKey nsId u).
  destruct (kv_get_err E (trace w) (vNetKey nsId u)) as [m|] eqn:Hget.
  { eexists. cbn. by eapply RunCheckFailed. }
  destruct (kv w !! vNetKey nsId u) as [d|] eqn:Hkey.
  { rewrite bool_decide_eq_true_2 by eauto.
    eexists. cbn. apply RunDuplicate; eauto. }
  rewrite bool_decide_eq_false_2 by (intros [? ?]; discriminate).
  cbn [GenUid ExecuteHttpRequest].
  destruct (endpointOf E u option) as [method url] eqn:Hep.
  assert (Hreqof : HttpRequest.mk method url
                     (requestBodyOf u (genUid E (uidSeq w)))
                   = requestOf E u option (genUid E (uidSeq w))).
  { unfold requestOf. by rewrite Hep. }
  cbn [uidSeq kv trace]. rewrite Hreqof.
  destruct (driver E (requestOf E u option (genUid E (uidSeq w))))
    as [msg|callResult] eqn:Hdrv.
  { eexists. cbn. by apply RunDriverFailed. }
  unfold Put, Marshal. cbn [kv uidSeq trace].
  change (GenResourceKey nsId StrVNet
            (TbVNetInfo.Id (contentOf u option (genUid E (uidSeq w)) callResult)))
    with (vNetKey nsId u).
  destruct (kv_put_err E (vNetKey nsId u) _) as [m|] eqn:Hput.
  { eexists. cbn. by eapply RunPutFailed. }
  change (TbVNetInfo.Id (contentOf u option (genUid E (uidSeq w)) callResult))
    with (TbVNetReq.Name u).
  fold (stored w (requestOf E u option (genUid E (uidSeq w))) (vNetKey nsId u)
          (contentOf u option (genUid E (uidSeq w)) callResult)).
  set (ws := createSubnets E nsId (TbVNetReq.Name u) _ _).
  destruct (GetKv E (vNetKey nsId u) ws) as [keyValue gerr] eqn:Hgk.
  destruct (Unmarshal (KvEntry.Value keyValue) TbVNetInfo.zero) as [result uerr] eqn:Hun.
  assert (Hrb : result = readBack E (vNetKey nsId u) ws).
  { unfold readBack. rewrite Hgk. cbn. by rewrite Hun. }
  unfold CreateOrUpdateLabel. fold (labelKey (genUid E (uidSeq w))).
  destruct (label_err E (labelKey (genUid E (uidSeq w)))) as [m|] eqn:Hlab.
  { eexists. cbn. by eapply RunLabelFailed. }
  eexists. cbn [fst snd]. rewrite Hrb. by eapply RunCreated.
Qed.

Lemma Run_trace nsId u option w res oe w' evs :
  Run E nsId u option w res oe w' evs -> trace w' = trace w ++ evs.
Proof.
  intros R. destruct R; cbn.
  - by rewrite app_nil_r.
  - by rewrite app_nil_r.
  - by rewrite app_nil_r.
  - by rewrite app_nil_r.
  - done.
  - done.
  - subst ws. rewrite createSubnets_trace. cbn. by rewrite <- !app_assoc.
  - subst ws. rewrite createSubnets_trace. cbn. by rewrite <- !app_assoc.
Qed.

Lemma CreateVNet_Run nsId u option w :
  Run E nsId u option w (CreateVNet E nsId u option w).1.1
    (CreateVNet E nsId u option w).1.2 (CreateVNet E nsId u option w).2
    (emitted E nsId u option w).
Proof.
  destruct (CreateVNet_Run_ex nsId u option w) as [evs R].
  pose proof (Run_trace _ _ _ _ _ _ _ _ R) as Ht.
  unfold emitted. rewrite Ht, drop_app_length. exact R.
Qed.

Lemma CreateVNet_trace nsId u option w :
  trace (CreateVNet E nsId u option w).2 = trace w ++ emitted E nsId u option w.
Proof. eapply Run_trace, CreateVNet_Run. Qed.


End VNetFacts.

Section VNetClaims.
Import VNet.
Variable E : Env.

Lemma subnetEvents_no_http nsId vNetId l req :
  ~ In (EvHttp req) (subnetEvents nsId vNetId l).
Proof.
  unfold subnetEvents. intros Hin. apply in_map_iff in Hin as (v & Hv & _). discriminate.
Qed.

Lemma subnetEvents_no_put nsId vNetId l k d :
  ~ In (EvPut k d) (subnetEvents nsId vNetId l).
Proof.
  unfold subnetEvents. intros Hin. apply in_map_iff in Hin as (v & Hv & _). discriminate.
Qed.

(** The only driver request of a call that got as far as the store. *)
Lemma http_of_created req req0 key content l1 l2 :
  In (EvHttp req)
    ([EvHttp req0; EvPut key content] ++ subnetEvents l1.1 l1.2 l2) \/
  (exists lab, In (EvHttp req)
    ([EvHttp req0; EvPut key content] ++ subnetEvents l1.1 l1.2 l2 ++ [lab])
    /\ forall r, lab <> EvHttp r) ->
  req = req0.
Proof.
  intros [Hin|(lab & Hin & Hlab)].
  - cbn in Hin. destruct Hin as [Heq|[Heq|Hin]]; [by inversion Heq|discriminate|].
    by apply subnetEvents_no_http in Hin.
  - cbn in Hin. destruct Hin as [Heq|[Heq|Hin]]; [by inversion Heq|discriminate|].
    apply in_app_or in Hin as [Hin|[Heq|[]]].
    + by apply subnetEvents_no_http in Hin.
    + by apply Hlab in Heq.
Qed.

(** C1: when the driver request of a call fails, CreateVNet returns the
    driver's error with the empty object, the store is as before (no vNet
    entry, no label entry) and the request is the only event of the call. *)
Theorem CreateVNet_driver_failure_persists_nothing nsId u option w req msg :
  In (EvHttp req) (emitted E nsId u option w) ->
  driver E req = inl msg ->
  (CreateVNet E nsId u option w).1 = (TbVNetInfo.zero, Some (DriverError msg))
  /\ kv (CreateVNet E nsId u option w).2 = kv w
  /\ emitted E nsId u option w = [EvHttp req].
Proof.
  intros Hin Hdrv.
  pose proof (CreateVNet_Run E nsId u option w) as R.
  destruct (CreateVNet E nsId u option w) as [[res oe] w'].
  remember (emitted E nsId u option w) as evs eqn:Hevs. clear Hevs.
  cbn [fst snd] in *.
  destruct R; try (by destruct Hin).
  - destruct Hin as [Heq|[]]. inversion Heq; subst req0.
    assert (msg0 = msg) as -> by congruence. done.
  - destruct Hin as [Heq|[]]. inversion Heq; subst req0. congruence.
  - assert (req = req0) as ->
      by (eapply (http_of_created _ _ _ _ (nsId, TbVNetReq.Name u)); left; exact Hin).
    congruence.
  - assert (req = req0) as ->.
    { eapply (http_of_created _ _ _ _ (nsId, TbVNetReq.Name u)). right.
      eexists. split; [exact Hin|discriminate]. }
    congruence.
Qed.

(** C2: once a Create of [(nsId, u)] has succeeded, a Create of the same
    [(nsId, u)] in any world that holds the vNet, with the store answering
    the existence check, returns the already-exists error and leaves the
    world as it is: no write, no driver call. *)
Theorem CreateVNet_twice_already_exists nsId u option1 option2 w0 w :
  (CreateVNet E nsId u option1 w0).1.2 = None ->
  is_Some (kv w !! vNetKey nsId u) ->
  kv_get_err E (trace w) (vNetKey nsId u) = None ->
  CreateVNet E nsId u option2 w
  = ((TbVNetInfo.zero, Some (AlreadyExists (TbVNetReq.Name u))), w)
  /\ kindOf (AlreadyExists (TbVNetReq.Name u)) = AlreadyExistsKind
  /\ Error (AlreadyExists (TbVNetReq.Name u))
     = Some ("The vNet " +:+ TbVNetReq.Name u +:+ " already exists.").
Proof.
  intros Hfirst Hex Hget. split; [|split; reflexivity].
  assert (Hok : CheckString E nsId = None /\ validate_Struct E u = None).
  { pose proof (CreateVNet_Run E nsId u option1 w0) as R.
    destruct (CreateVNet E nsId u option1 w0) as [[res oe] w'].
    cbn [fst snd] in *. subst oe.
    remember (emitted E nsId u option1 w0) as evs eqn:Hevs. clear Hevs.
    inversion R; subst; done. }
  destruct Hok as (Hns & Hreq).
  pose proof (CreateVNet_Run E nsId u option2 w) as R.
  destruct (CreateVNet E nsId u option2 w) as [[res oe] w'].
  remember (emitted E nsId u option2 w) as evs eqn:Hevs. clear Hevs.
  cbn [fst snd] in *.
  destruct Hex as [d Hd].
  destruct R; try subst key; congruence.
Qed.

(** C7: when the driver call of a CreateVNet succeeds and the write to the
    store fails, the caller gets the store's error (an [Internal] one) with
    the object; the store is as before and the one driver request is the only
    event of the call: nothing is sent to undo it. *)
Theorem CreateVNet_put_failure_is_internal nsId u option w req callResult m :
  In (EvHttp req) (emitted E nsId u option w) ->
  driver E req = inr callResult ->
  kv_put_err E (vNetKey nsId u)
    (DocVNet (contentOf u option (genUid E (uidSeq w)) callResult)) = Some m ->
  (CreateVNet E nsId u option w).1
  = (contentOf u option (genUid E (uidSeq w)) callResult, Some (KvError m))
  /\ kindOf (KvError m) = Internal
  /\ kv (CreateVNet E nsId u option w).2 = kv w
  /\ emitted E nsId u option w = [EvHttp req].
Proof.
  intros Hin Hdrv Hput.
  pose proof (CreateVNet_Run E nsId u option w) as R.
  destruct (CreateVNet E nsId u option w) as [[res oe] w'].
  remember (emitted E nsId u option w) as evs eqn:Hevs. clear Hevs.
  cbn [fst snd] in *.
  destruct R; try (by destruct Hin).
  - destruct Hin as [Heq|[]]. inversion Heq; subst req0. congruence.
  - destruct Hin as [Heq|[]]. inversion Heq; subst req0.
    assert (callResult0 = callResult) as -> by congruence.
    subst content uuid. assert (m0 = m) as -> by congruence. done.
  - assert (req = req0) as ->
      by (eapply (http_of_created _ _ _ _ (nsId, TbVNetReq.Name u)); left; exact Hin).
    assert (callResult0 = callResult) as -> by congruence.
    subst content uuid key. congruence.
  - assert (req = req0) as ->.
    { eapply (http_of_created _ _ _ _ (nsId, TbVNetReq.Name u)). right.
      eexists. split; [exact Hin|discriminate]. }
    assert (callResult0 = callResult) as -> by congruence.
    subst content uuid key. congruence.
Qed.

Lemma CheckString_rejects name :
  name = "" \/ charsetOk name = false -> CheckString E name = Some (CheckStringError name).
Proof.
  unfold CheckString. intros [->|Hc]; [reflexivity|].
  destruct (String.eqb name ""); [reflexivity|]. by rewrite Hc.
Qed.

Lemma validate_Struct_rejects u :
  TbVNetReq.Name u = "" \/ charsetOk (TbVNetReq.Name u) = false
  \/ TbVNetReq.ConnectionName u = "" ->
  exists fes, validate_Struct E u = Some (ValidationErrors fes).
Proof.
  unfold validate_Struct, required, TbVNetReqStructLevelValidation.
  intros [Hn|[Hc|Hn]].
  - rewrite Hn. cbn. eauto.
  - rewrite (CheckString_rejects (TbVNetReq.Name u)) by auto.
    destruct (String.eqb (TbVNetReq.Name u) ""),
             (String.eqb (TbVNetReq.ConnectionName u) ""); cbn; eauto.
  - rewrite Hn. cbn [String.eqb].
    destruct (String.eqb (TbVNetReq.Name u) ""); cbn; eauto.
Qed.

(** C9, amended: a call with an empty or charset-violating nsId or name, or
    with an empty name or connectionName, returns a [Validation] error with
    the empty object and leaves the world as it is: no driver request, no
    write.  (The CIDR block is not looked at.) *)
Theorem CreateVNet_rejects_invalid_input nsId u option w :
  nsId = "" \/ charsetOk nsId = false
  \/ TbVNetReq.Name u = "" \/ charsetOk (TbVNetReq.Name u) = false
  \/ TbVNetReq.ConnectionName u = "" ->
  exists e,
    CreateVNet E nsId u option w = ((TbVNetInfo.zero, Some e), w)
    /\ kindOf e = Validation.
Proof.
  intros Hbad. unfold CreateVNet.
  destruct (CheckString E nsId) as [e|] eqn:Hns.
  { exists e. split; [reflexivity|]. by eapply CheckString_Validation. }
  destruct Hbad as [H|[H|Hbad]];
    [rewrite CheckString_rejects in Hns by auto; discriminate ..|].
  destruct (validate_Struct_rejects u Hbad) as [fes ->].
  eexists. split; reflexivity.
Qed.

(** What a successful call did. *)
Lemma CreateVNet_created nsId u option w :
  (CreateVNet E nsId u option w).1.2 = None ->
  exists callResult,
    let uuid := genUid E (uidSeq w) in
    let req := requestOf E u option uuid in
    let content := contentOf u option uuid callResult in
    let key := vNetKey nsId u in
    let ws := createSubnets E nsId (TbVNetReq.Name u)
                (elems (SpiderVPCInfo.SubnetInfoList callResult))
                (stored w req key content) in
    driver E req = inr callResult
    /\ kv_get_err E (trace w) key = None
    /\ (CreateVNet E nsId u option w).1.1 = readBack E key ws
    /\ kv (CreateVNet E nsId u option w).2
       = <[labelKey uuid := DocLabel (LabelInfo.mk key (labelsOf nsId))]> (kv ws)
    /\ emitted E nsId u option w
       = [EvHttp req; EvPut key (DocVNet content)]
         ++ subnetEvents nsId (TbVNetReq.Name u)
              (elems (SpiderVPCInfo.SubnetInfoList callResult))
         ++ [EvLabel StrVNet uuid key (labelsOf nsId)].
Proof.
  intros Hok.
  pose proof (CreateVNet_Run E nsId u option w) as R.
  destruct (CreateVNet E nsId u option w) as [[res oe] w'].
  remember (emitted E nsId u option w) as evs eqn:Hevs. clear Hevs.
  cbn [fst snd] in *. subst oe.
  inversion R; subst. exists callResult. cbn zeta. done.
Qed.

Lemma labelKey_vNetKey uuid nsId u : labelKey uuid <> vNetKey nsId u.
Proof. unfold labelKey, vNetKey, GenResourceKey. cbn. discriminate. Qed.

Lemma fold_append_elems {A B : Type} (g : A -> B) (l : list A) (acc : slice B) :
  elems (fold_left (fun acc v => append acc (g v)) l acc) = elems acc ++ List.map g l.
Proof.
  revert acc. induction l as [|v l IH]; intros acc; cbn [fold_left List.map].
  - by rewrite app_nil_r.
  - rewrite IH. unfold append at 1. cbn [elems default id]. by rewrite <- app_assoc.
Qed.

Lemma handedNames_requestOf u option uuid :
  handedNames (requestOf E u option uuid)
  = uuid :: List.map TbSubnetReq.Name (elems (TbVNetReq.SubnetInfoList u)).
Proof.
  unfold handedNames, requestOf, requestBodyOf. cbv zeta.
  cbn [HttpRequest.body SpiderVPCReqInfoWrapper.ReqInfo SpiderVPCReqInfo.Name
       SpiderVPCReqInfo.SubnetInfoList].
  f_equal.
  rewrite (fold_append_elems
             (fun v => SpiderSubnetReqInfo.mk (TbSubnetReq.Name v)
                         (SpiderSubnetReqInfo.IPv4_CIDR (toSpiderSubnetReqInfo v))
                         (SpiderSubnetReqInfo.KeyValueList (toSpiderSubnetReqInfo v)))).
  cbn. rewrite map_map. reflexivity.
Qed.


(** C3, amended: after a successful CreateVNet, given that the reads of
    the vNet's key succeed and that CreateSubnet changes at most the subnet
    list of a stored vNet, the object returned is the one a following Get
    returns; its id and name are [u.Name], its connectionName and
    description are those of [u], and its cidrBlock is the IPv4_CIDR of the
    driver's answer. *)
Theorem CreateVNet_get_roundtrip nsId u option w :
  (CreateVNet E nsId u option w).1.2 = None ->
  (forall h, kv_get_err E h (vNetKey nsId u) = None) ->
  subnetsKeep E ->
  exists callResult v,
    driver E (requestOf E u option (genUid E (uidSeq w))) = inr callResult
    /\ (CreateVNet E nsId u option w).1.1 = v
    /\ GetVNet E nsId (TbVNetReq.Name u) (CreateVNet E nsId u option w).2 = Some v
    /\ TbVNetInfo.Id v = TbVNetReq.Name u
    /\ TbVNetInfo.Name v = TbVNetReq.Name u
    /\ TbVNetInfo.ConnectionName v = TbVNetReq.ConnectionName u
    /\ TbVNetInfo.Description v = TbVNetReq.Description u
    /\ TbVNetInfo.CidrBlock v = SpiderVPCInfo.IPv4_CIDR callResult.
Proof.
  intros Hok Hreads Hkeep.
  destruct (CreateVNet_created nsId u option w Hok)
    as (callResult & Hdrv & _ & Hres & Hkv & _).
  cbn zeta in *.
  set (uuid := genUid E (uidSeq w)) in *.
  set (req := requestOf E u option uuid) in *.
  set (content := contentOf u option uuid callResult) in *.
  set (key := vNetKey nsId u) in *.
  destruct (createSubnets_keep E nsId (TbVNetReq.Name u)
              (elems (SpiderVPCInfo.SubnetInfoList callResult))
              (stored w req key content) key content Hkeep) as (v & Hv & Hsame).
  { cbn. apply lookup_insert_eq. }
  exists callResult, v.
  assert (Hrb : readBack E key
                  (createSubnets E nsId (TbVNetReq.Name u)
                     (elems (SpiderVPCInfo.SubnetInfoList callResult))
                     (stored w req key content)) = v).
  { unfold readBack, GetKv. fold key in Hreads. rewrite Hreads, Hv. reflexivity. }
  split; [done|]. split; [by rewrite Hres|]. split.
  { unfold GetVNet, GetKv. fold (vNetKey nsId u). fold key.
    fold key in Hreads. rewrite Hreads, Hkv.
    rewrite lookup_insert_ne by apply labelKey_vNetKey.
    rewrite Hv. reflexivity. }
  unfold sameButSubnets in Hsame. rewrite Hsame. cbn. done.
Qed.

(** C5, amended: for every vNet created by CreateVNet, the VPC name in
    the body of the driver request is the uid generated in the call; when a
    VPC is registered by name (option [register], no cspVNetId) the request
    is a GET on [{base}/vpc/{u.Name}], addressed by the tenant-facing name;
    the object written to the store holds the id [u.Name] next to that uid
    and to the names the driver returned. *)
Theorem CreateVNet_names_handed_to_driver nsId u option w :
  (CreateVNet E nsId u option w).1.2 = None ->
  exists req callResult c rest,
    emitted E nsId u option w
    = EvHttp req :: EvPut (vNetKey nsId u) (DocVNet c) :: rest
    /\ driver E req = inr callResult
    /\ SpiderVPCReqInfo.Name (SpiderVPCReqInfoWrapper.ReqInfo (HttpRequest.body req))
       = genUid E (uidSeq w)
    /\ (option = "register" -> TbVNetReq.CspVNetId u = "" ->
        HttpRequest.method req = "GET"
        /\ HttpRequest.url req = SpiderRestUrl E +:+ "/vpc/" +:+ TbVNetReq.Name u)
    /\ TbVNetInfo.Id c = TbVNetReq.Name u
    /\ TbVNetInfo.Uuid c = genUid E (uidSeq w)
    /\ TbVNetInfo.CspVNetName c = IID.NameId (SpiderVPCInfo.IId callResult)
    /\ TbVNetInfo.CspVNetId c = IID.SystemId (SpiderVPCInfo.IId callResult).
Proof.
  intros Hok.
  destruct (CreateVNet_created nsId u option w Hok)
    as (callResult & Hdrv & _ & _ & _ & Hev).
  cbn zeta in *.
  eexists _, callResult, _, _. split; [exact Hev|].
  split; [exact Hdrv|]. split; [reflexivity|]. split; [|done].
  intros -> Hid. unfold requestOf, endpointOf. rewrite Hid. split; reflexivity.
Qed.


(** C10: the object that a successful CreateVNet writes to the store has an
    empty, non-nil associatedObjectList, its Id equal to its Name (the name
    of the request), and as Uuid the uid generated in the call, which is the
    VPC name of the driver request; it is the only write of an object in the
    call, and the association rule does not block its deletion. *)
Theorem CreateVNet_initial_object nsId u option w :
  (CreateVNet E nsId u option w).1.2 = None ->
  exists req c rest,
    emitted E nsId u option w
    = EvHttp req :: EvPut (vNetKey nsId u) (DocVNet c) :: rest
    /\ (forall k d, ~ In (EvPut k d) rest)
    /\ TbVNetInfo.AssociatedObjectList c = Some []
    /\ TbVNetInfo.Id c = TbVNetInfo.Name c
    /\ TbVNetInfo.Name c = TbVNetReq.Name u
    /\ TbVNetInfo.Uuid c = genUid E (uidSeq w)
    /\ SpiderVPCReqInfo.Name (SpiderVPCReqInfoWrapper.ReqInfo (HttpRequest.body req))
       = TbVNetInfo.Uuid c
    /\ deleteBlocked c = false.
Proof.
  intros Hok.
  destruct (CreateVNet_created nsId u option w Hok)
    as (callResult & Hdrv & _ & _ & _ & Hev).
  cbn zeta in *.
  eexists _, _, _. split; [exact Hev|]. split; [|done].
  intros k d Hin. apply in_app_or in Hin as [Hin|[Heq|[]]].
  - by apply subnetEvents_no_put in Hin.
  - discriminate.
Qed.

End VNetClaims.

(** * Worked examples on the concrete environment *)

Lemma demoEnv_subnetsKeep : VNet.subnetsKeep VNet.demoEnv.
Proof.
  intros nsId vNetId req objectOnly m k v Hk. cbn. unfold VNet.demoSubnetImpl.
  destruct (m !! VNet.GenResourceKey nsId VNet.StrVNet vNetId) as [[v0| |]|] eqn:Hp;
    cbn [fst]; try (exists v; split; [exact Hk|by destruct v]).
  destruct (decide (k = VNet.GenResourceKey nsId VNet.StrVNet vNetId)) as [->|Hne].
  - rewrite lookup_insert_eq. eexists. split; [reflexivity|].
    assert (v0 = v) as -> by congruence. reflexivity.
  - rewrite lookup_insert_ne by done. exists v. split; [exact Hk|by destruct v].
Qed.

Lemma CreateVNet_driver_failure_persists_nothing_witness :
  (VNet.CreateVNet VNet.driverDownEnv "ns01" VNet.demoReq "" VNet.emptyWorld).1
  = (VNet.TbVNetInfo.zero, Some (VNet.DriverError "connection refused"))
  /\ VNet.kv (VNet.CreateVNet VNet.driverDownEnv "ns01" VNet.demoReq "" VNet.emptyWorld).2
     = VNet.kv VNet.emptyWorld
  /\ VNet.emitted VNet.driverDownEnv "ns01" VNet.demoReq "" VNet.emptyWorld
     = [VNet.EvHttp (VNet.requestOf VNet.driverDownEnv VNet.demoReq "" "uid-a")].
Proof.
  apply (CreateVNet_driver_failure_persists_nothing VNet.driverDownEnv "ns01"
           VNet.demoReq "" VNet.emptyWorld
           (VNet.requestOf VNet.driverDownEnv VNet.demoReq "" "uid-a")
           "connection refused").
  - vm_compute. left. reflexivity.
  - reflexivity.
Defined.

Lemma CreateVNet_twice_already_exists_witness :
  VNet.CreateVNet VNet.demoEnv "ns01" VNet.demoReq ""
    (VNet.CreateVNet VNet.demoEnv "ns01" VNet.demoReq "" VNet.emptyWorld).2
  = ((VNet.TbVNetInfo.zero, Some (VNet.AlreadyExists "vnet01")),
     (VNet.CreateVNet VNet.demoEnv "ns01" VNet.demoReq "" VNet.emptyWorld).2)
  /\ VNet.kindOf (VNet.AlreadyExists "vnet01") = VNet.AlreadyExistsKind
  /\ VNet.Error (VNet.AlreadyExists "vnet01") = Some "The vNet vnet01 already exists.".
Proof.
  apply (CreateVNet_twice_already_exists VNet.demoEnv "ns01" VNet.demoReq "" ""
           VNet.emptyWorld
           (VNet.CreateVNet VNet.demoEnv "ns01" VNet.demoReq "" VNet.emptyWorld).2).
  - vm_compute. reflexivity.
  - vm_compute. eexists. reflexivity.
  - reflexivity.
Defined.

Lemma CreateVNet_put_failure_is_internal_witness :
  (VNet.CreateVNet VNet.storeDownEnv "ns01" VNet.demoReq "" VNet.emptyWorld).1
  = (VNet.contentOf VNet.demoReq "" "uid-a" VNet.demoVPC,
     Some (VNet.KvError "kvstore: put failed"))
  /\ VNet.kindOf (VNet.KvError "kvstore: put failed") = VNet.Internal
  /\ VNet.kv (VNet.CreateVNet VNet.storeDownEnv "ns01" VNet.demoReq "" VNet.emptyWorld).2
     = VNet.kv VNet.emptyWorld
  /\ VNet.emitted VNet.storeDownEnv "ns01" VNet.demoReq "" VNet.emptyWorld
     = [VNet.EvHttp (VNet.requestOf VNet.storeDownEnv VNet.demoReq "" "uid-a")].
Proof.
  apply (CreateVNet_put_failure_is_internal VNet.storeDownEnv "ns01" VNet.demoReq ""
           VNet.emptyWorld (VNet.requestOf VNet.storeDownEnv VNet.demoReq "" "uid-a")
           VNet.demoVPC "kvstore: put failed").
  - vm_compute. left. reflexivity.
  - reflexivity.
  - reflexivity.
Defined.

Lemma CreateVNet_rejects_invalid_input_witness :
  VNet.charsetOk "ns 01" = false
  /\ exists e,
       VNet.CreateVNet VNet.demoEnv "ns 01" VNet.demoReq "" VNet.emptyWorld
       = ((VNet.TbVNetInfo.zero, Some e), VNet.emptyWorld)
       /\ VNet.kindOf e = VNet.Validation.
Proof.
  split; [reflexivity|].
  apply (CreateVNet_rejects_invalid_input VNet.demoEnv "ns 01" VNet.demoReq ""
           VNet.emptyWorld).
  right. left. reflexivity.
Defined.

(** C9, as stated, fails on the CIDR block: the request with the block
    [not-a-cidr] passes the validation.  With a driver that is down the call
    ends in the driver's error after the request went out; with a driver
    that answers, the call succeeds and the vNet is in the store. *)
Lemma CreateVNet_malformed_cidr_reaches_driver :
  VNet.cidrSyntaxOk (VNet.TbVNetReq.CidrBlock VNet.badCidrReq) = false
  /\ (VNet.CreateVNet VNet.driverDownEnv "ns01" VNet.badCidrReq "" VNet.emptyWorld).1.2
     = Some (VNet.DriverError "connection refused")
  /\ VNet.kindOf (VNet.DriverError "connection refused") <> VNet.Validation
  /\ (exists req,
        VNet.emitted VNet.driverDownEnv "ns01" VNet.badCidrReq "" VNet.emptyWorld
        = [VNet.EvHttp req]
        /\ VNet.SpiderVPCReqInfo.IPv4_CIDR
             (VNet.SpiderVPCReqInfoWrapper.ReqInfo (VNet.HttpRequest.body req))
           = "not-a-cidr")
  /\ (VNet.CreateVNet VNet.demoEnv "ns01" VNet.badCidrReq "" VNet.emptyWorld).1.2 = None
  /\ is_Some
       (VNet.kv (VNet.CreateVNet VNet.demoEnv "ns01" VNet.badCidrReq "" VNet.emptyWorld).2
          !! "/ns/ns01/resources/vNet/vnet01").
Proof.
  split; [reflexivity|]. split; [reflexivity|]. split; [discriminate|].
  split; [eexists; split; [vm_compute; reflexivity|reflexivity]|].
  split; [reflexivity|]. vm_compute. eexists. reflexivity.
Qed.


(** C3, as stated, fails on the CIDR block: the request asks for
    [10.0.0.5/16], the driver answers [10.0.0.0/16], and that is what the
    Get after the Create returns. *)
Lemma CreateVNet_cidr_not_echoed :
  (VNet.CreateVNet VNet.demoEnv "ns01" VNet.demoReq "" VNet.emptyWorld).1.2 = None
  /\ exists v,
       VNet.GetVNet VNet.demoEnv "ns01" "vnet01"
         (VNet.CreateVNet VNet.demoEnv "ns01" VNet.demoReq "" VNet.emptyWorld).2 = Some v
       /\ VNet.TbVNetInfo.CidrBlock v = "10.0.0.0/16"
       /\ VNet.TbVNetReq.CidrBlock VNet.demoReq = "10.0.0.5/16"
       /\ VNet.TbVNetInfo.CidrBlock v <> VNet.TbVNetReq.CidrBlock VNet.demoReq.
Proof.
  split; [reflexivity|]. eexists. split; [vm_compute; reflexivity|].
  split; [reflexivity|]. split; [reflexivity|]. discriminate.
Qed.

Lemma CreateVNet_get_roundtrip_witness :
  exists callResult v,
    VNet.driver VNet.demoEnv (VNet.requestOf VNet.demoEnv VNet.demoReq "" "uid-a")
    = inr callResult
    /\ (VNet.CreateVNet VNet.demoEnv "ns01" VNet.demoReq "" VNet.emptyWorld).1.1 = v
    /\ VNet.GetVNet VNet.demoEnv "ns01" "vnet01"
         (VNet.CreateVNet VNet.demoEnv "ns01" VNet.demoReq "" VNet.emptyWorld).2 = Some v
    /\ VNet.TbVNetInfo.Id v = "vnet01"
    /\ VNet.TbVNetInfo.Name v = "vnet01"
    /\ VNet.TbVNetInfo.ConnectionName v = "aws-ap-northeast-2"
    /\ VNet.TbVNetInfo.Description v = "tenant network"
    /\ VNet.TbVNetInfo.CidrBlock v = VNet.SpiderVPCInfo.IPv4_CIDR callResult.
Proof.
  apply (CreateVNet_get_roundtrip VNet.demoEnv "ns01" VNet.demoReq "" VNet.emptyWorld).
  - vm_compute. reflexivity.
  - reflexivity.
  - exact demoEnv_subnetsKeep.
Defined.

(** C5, as stated, fails when a VPC is registered by name: the driver is
    asked for [{base}/vpc/vnet01], that is, by the tenant-facing id of the
    vNet, and the vNet is created from the answer. *)
Lemma CreateVNet_register_by_tenant_name :
  (VNet.CreateVNet VNet.demoEnv "ns01" VNet.registerReq "register" VNet.emptyWorld).1.2
  = None
  /\ exists req rest,
       VNet.emitted VNet.demoEnv "ns01" VNet.registerReq "register" VNet.emptyWorld
       = VNet.EvHttp req :: rest
       /\ VNet.HttpRequest.method req = "GET"
       /\ VNet.HttpRequest.url req = "http://localhost:1024/spider/vpc/vnet01"
       /\ VNet.HttpRequest.url req
          = VNet.SpiderRestUrl VNet.demoEnv +:+ "/vpc/"
            +:+ VNet.TbVNetReq.Name VNet.registerReq
       /\ VNet.TbVNetReq.Name VNet.registerReq
          <> VNet.genUid VNet.demoEnv (VNet.uidSeq VNet.emptyWorld).
Proof.
  split; [reflexivity|]. eexists _, _. split; [vm_compute; reflexivity|].
  split; [reflexivity|]. split; [reflexivity|]. split; [reflexivity|discriminate].
Qed.

Lemma CreateVNet_names_handed_to_driver_witness :
  exists req callResult c rest,
    VNet.emitted VNet.demoEnv "ns01" VNet.registerReq "register" VNet.emptyWorld
    = VNet.EvHttp req :: VNet.EvPut "/ns/ns01/resources/vNet/vnet01" (VNet.DocVNet c) :: rest
    /\ VNet.driver VNet.demoEnv req = inr callResult
    /\ VNet.SpiderVPCReqInfo.Name
         (VNet.SpiderVPCReqInfoWrapper.ReqInfo (VNet.HttpRequest.body req))
       = "uid-a"
    /\ ("register" = "register" -> VNet.TbVNetReq.CspVNetId VNet.registerReq = "" ->
        VNet.HttpRequest.method req = "GET"
        /\ VNet.HttpRequest.url req
           = VNet.SpiderRestUrl VNet.demoEnv +:+ "/vpc/" +:+ "vnet01")
    /\ VNet.TbVNetInfo.Id c = "vnet01"
    /\ VNet.TbVNetInfo.Uuid c = "uid-a"
    /\ VNet.TbVNetInfo.CspVNetName c = VNet.IID.NameId (VNet.SpiderVPCInfo.IId callResult)
    /\ VNet.TbVNetInfo.CspVNetId c = VNet.IID.SystemId (VNet.SpiderVPCInfo.IId callResult).
Proof.
  apply (CreateVNet_names_handed_to_driver VNet.demoEnv "ns01" VNet.registerReq
           "register" VNet.emptyWorld).
  vm_compute. reflexivity.
Defined.


Lemma CreateVNet_initial_object_witness :
  exists req c rest,
    VNet.emitted VNet.demoEnv "ns01" VNet.demoReq "" VNet.emptyWorld
    = VNet.EvHttp req :: VNet.EvPut "/ns/ns01/resources/vNet/vnet01" (VNet.DocVNet c) :: rest
    /\ (forall k d, ~ In (VNet.EvPut k d) rest)
    /\ VNet.TbVNetInfo.AssociatedObjectList c = Some []
    /\ VNet.TbVNetInfo.Id c = VNet.TbVNetInfo.Name c
    /\ VNet.TbVNetInfo.Name c = "vnet01"
    /\ VNet.TbVNetInfo.Uuid c = "uid-a"
    /\ VNet.SpiderVPCReqInfo.Name
         (VNet.SpiderVPCReqInfoWrapper.ReqInfo (VNet.HttpRequest.body req))
       = VNet.TbVNetInfo.Uuid c
    /\ VNet.deleteBlocked c = false.
Proof.
  apply (CreateVNet_initial_object VNet.demoEnv "ns01" VNet.demoReq "" VNet.emptyWorld).
  vm_compute. reflexivity.
Defined.

(** * More on the config store: reads, listings and clean-up *)

Section ConfigMore.
Import Config.
Variable F : Faults.

Lemma strip_prefix_prefix p q k r :
  strip_prefix (p +:+ q) k = Some r -> String.prefix p k = true.
Proof.
  revert k. induction p as [|a p IH]; intros k H; [by destruct k|].
  change (String a p +:+ q) with (String a (p +:+ q)) in H.
  destruct k as [|b k]; cbn in H |- *; [discriminate|].
  destruct (Ascii.eqb_spec a b) as [->|Hne]; [|discriminate].
  destruct (ascii_dec b b); [by apply IH|done].
Qed.

Lemma isChild_prefix p k : isChild p k = true -> String.prefix p k = true.
Proof.
  unfold isChild. destruct (strip_prefix (p +:+ "/") k) eqn:Hs; [|discriminate].
  intros _. by eapply strip_prefix_prefix.
Qed.

Lemma strip_prefix_append p s : strip_prefix p (p +:+ s) = Some s.
Proof.
  induction p as [|a p IH]; [done|].
  change (String a p +:+ s) with (String a (p +:+ s)). cbn. by rewrite Ascii.eqb_refl.
Qed.

Lemma TrimPrefix_append p s : TrimPrefix (p +:+ s) p = s.
Proof. unfold TrimPrefix. by rewrite strip_prefix_append. Qed.

Lemma prefix_append p s : String.prefix p (p +:+ s) = true.
Proof.
  induction p as [|a p IH]; [by destruct s|].
  change (String a p +:+ s) with (String a (p +:+ s)). cbn.
  destruct (ascii_dec a a); [exact IH|done].
Qed.

(** What [GetList] lists, and what [GetChildList] keeps of it. *)
Lemma GetList_In prefix st kv :
  list_err F prefix = None ->
  In kv (GetList F prefix true st).1
  <-> CBStore st !! KeyValue.Key kv = Some (KeyValue.Value kv)
      /\ String.prefix prefix (KeyValue.Key kv) = true.
Proof.
  intros Hl. unfold GetList. rewrite Hl. cbn [fst]. rewrite in_map_iff. split.
  - intros ([k d] & <- & Hin). apply filter_In in Hin as [Hin Hp].
    apply list_elem_of_In, elem_of_map_to_list in Hin. done.
  - intros [Hk Hp]. exists (KeyValue.Key kv, KeyValue.Value kv). split; [by destruct kv|].
    apply filter_In. split; [|done]. by apply list_elem_of_In, elem_of_map_to_list.
Qed.

Lemma children_In st kv :
  list_err F "/config" = None ->
  In kv (GetChildList (GetList F "/config" true st).1 "/config")
  <-> CBStore st !! KeyValue.Key kv = Some (KeyValue.Value kv)
      /\ isChild "/config" (KeyValue.Key kv) = true.
Proof.
  intros Hl. unfold GetChildList. rewrite filter_In, GetList_In by done. split.
  - tauto.
  - intros [Hk Hc]. split; [split|]; auto using isChild_prefix.
Qed.


Lemma fold_append_map {A B : Type} (f : A -> B) (l : list A) (acc : list B) :
  fold_left (fun acc v => acc ++ [f v]) l acc = acc ++ List.map f l.
Proof.
  revert acc. induction l as [|v l IH]; intros acc; cbn.
  - by rewrite app_nil_r.
  - rewrite IH. by rewrite <- app_assoc.
Qed.

Lemma filter_none {A : Type} (f : A -> bool) (l : list A) :
  (forall x, In x l -> f x = false) -> List.filter f l = [].
Proof.
  induction l as [|x l IH]; intros H; cbn; [done|].
  rewrite (H x) by (by left). apply IH. intros y Hy. apply H. by right.
Qed.



(** X2: for a non-empty id whose key is in the store, with the store
    answering, [GetConfig] returns the stored document as [json.Unmarshal]
    decodes it into the empty object: the object itself; for a text that is
    not JSON, the empty object with the error; for a JSON text with a value
    of the wrong type, the object holding the fields that did decode,
    together with the error. *)
Theorem GetConfig_returns_stored id st d :
  id <> "" ->
  get_err F ("/config/" +:+ id) = None ->
  CBStore st !! ("/config/" +:+ id) = Some d ->
  GetConfig F id st
  = Returns (match d with
             | DocConfig c => (c, None)
             | DocRaw s => (ConfigInfo.zero, Some (UnmarshalError s))
             | DocMistyped s i n v =>
                 (ConfigInfo.mk (default "" i) (default "" n) (default "" v),
                  Some (UnmarshalError s))
             end).
Proof.
  intros Hne Hg Hk. unfold GetConfig, CheckConfig, Get.
  destruct (String.eqb_spec id "") as [->|_]; [done|].
  rewrite Hg, Hk. cbn. by destruct d.
Qed.

(** X3: with the listing answering and every entry directly below
    [/config] decoding, [ListConfig] returns exactly the objects stored
    directly below [/config], and Go's nil slice when there is none; deeper
    keys are not listed. *)
Theorem ListConfig_lists_children st :
  list_err F "/config" = None ->
  configTreeDecodes st ->
  exists l,
    ListConfig F st = (match l with [] => None | _ :: _ => Some l end, None)
    /\ forall c, In c l
         <-> exists k, isChild "/config" k = true /\ CBStore st !! k = Some (DocConfig c).
Proof.
  intros Hl Hwf. unfold ListConfig.
  pose proof (fun kv => children_In st kv Hl) as Hmem.
  destruct (GetList F "/config" true st) as [keyValue err] eqn:Hgl.
  assert (err = None) as ->.
  { unfold GetList in Hgl. rewrite Hl in Hgl. by inversion Hgl. }
  cbn [fst] in Hmem.
  set (children := GetChildList keyValue "/config") in *.
  assert (Hdec : Forall (fun kv => exists c, KeyValue.Value kv = DocConfig c) children).
  { apply Forall_forall. intros kv Hin%list_elem_of_In. apply Hmem in Hin as [Hk Hc].
    eapply Hwf; eauto. }
  exists (List.map (fun kv => (Unmarshal (KeyValue.Value kv) ConfigInfo.zero).1) children).
  split.
  - destruct children as [|kv0 rest] eqn:Hch; [reflexivity|].
    rewrite decodeAll_decoded by exact Hdec. reflexivity.
  - intros c. rewrite in_map_iff. split.
    + intros (kv & <- & Hin). pose proof Hin as Hin'. apply Hmem in Hin as [Hk Hc].
      exists (KeyValue.Key kv). split; [done|].
      apply list_elem_of_In in Hin'.
      destruct (proj1 (Forall_forall _ _) Hdec kv Hin') as [c' Hc'].
      rewrite Hk, Hc'. reflexivity.
    + intros (k & Hc & Hk). exists (KeyValue.mk k (DocConfig c)). split; [reflexivity|].
      apply Hmem. done.
Qed.


(** X5: with the listing answering, [ListConfigId] returns the key of every
    entry whose key starts with [/config], without the leading [/config/]:
    the id of every stored setting is in it, and so are nested keys. *)
Theorem ListConfigId_lists_keys st :
  list_err F "/config" = None ->
  (forall x, In x (ListConfigId F st)
     <-> exists k, is_Some (CBStore st !! k) /\ String.prefix "/config" k = true
                   /\ x = TrimPrefix k "/config/")
  /\ (forall id, is_Some (CBStore st !! ("/config/" +:+ id)) -> In id (ListConfigId F st)).
Proof.
  intros Hl.
  assert (Hiff : forall x, In x (ListConfigId F st)
     <-> exists k, is_Some (CBStore st !! k) /\ String.prefix "/config" k = true
                   /\ x = TrimPrefix k "/config/").
  { intros x. unfold ListConfigId.
    pose proof (fun kv => GetList_In "/config" st kv Hl) as Hmem.
    destruct (GetList F "/config" true st) as [keyValue err]. cbn [fst] in Hmem.
    rewrite fold_append_map. cbn [app]. rewrite in_map_iff. split.
    - intros (kv & <- & Hin). apply Hmem in Hin as [Hk Hp].
      exists (KeyValue.Key kv). eauto.
    - intros (k & [d Hd] & Hp & ->). exists (KeyValue.mk k d). split; [reflexivity|].
      apply Hmem. done. }
  split; [exact Hiff|].
  intros id Hid. apply Hiff. exists ("/config/" +:+ id). split; [done|]. split.
  - reflexivity.
  - symmetry. apply (TrimPrefix_append "/config/").
Qed.

End ConfigMore.

Section ConfigCleanup.
Import Config.
Variable F : Faults.
Variable D : string -> option string.

Lemma empty_of_no_member {A : Type} (l : list A) : (forall x, ~ In x l) -> l = [].
Proof. destruct l as [|x l]; [done|]. intros H. destruct (H x). by left. Qed.

Lemma deleteEach_all (l : list KeyValue.t) st :
  (forall k, D k = None) ->
  exists st',
    deleteEach D l st = (None, st')
    /\ mirrors st' = mirrors st
    /\ (forall k, In k (List.map KeyValue.Key l) -> CBStore st' !! k = None)
    /\ (forall k, ~ In k (List.map KeyValue.Key l) -> CBStore st' !! k = CBStore st !! k).
Proof.
  intros HD. revert st. induction l as [|v l IH]; intros st.
  - exists st. cbn. tauto.
  - cbn [deleteEach]. unfold Delete. rewrite HD.
    destruct (IH (with_store (delete (KeyValue.Key v) (CBStore st)) st))
      as (st' & Hrun & Hmir & Hin & Hout).
    exists st'. split; [exact Hrun|]. split; [exact Hmir|]. split.
    + intros k Hk.
      destruct (in_dec String.string_dec k (List.map KeyValue.Key l)) as [Hl|Hl];
        [by apply Hin|].
      rewrite Hout by done. destruct Hk as [<-|Hk]; [|done]. cbn. apply lookup_delete_eq.
    + intros k Hk. cbn in Hk. rewrite Hout by tauto. cbn.
      apply lookup_delete_ne. tauto.
Qed.

Lemma deleteEach_stops (l1 : list KeyValue.t) kv (l2 : list KeyValue.t) st m :
  (forall x, In x l1 -> D (KeyValue.Key x) = None) ->
  D (KeyValue.Key kv) = Some m ->
  exists st',
    deleteEach D (l1 ++ kv :: l2) st = (Some (StoreError m), st')
    /\ mirrors st' = mirrors st
    /\ (forall k, In k (List.map KeyValue.Key l1) -> CBStore st' !! k = None)
    /\ (forall k, ~ In k (List.map KeyValue.Key l1) -> CBStore st' !! k = CBStore st !! k).
Proof.
  intros Hok Hfail. revert st. induction l1 as [|v l1 IH]; intros st.
  - exists st. cbn [app deleteEach]. unfold Delete. rewrite Hfail. cbn. tauto.
  - cbn [app deleteEach]. unfold Delete. rewrite (Hok v) by (by left).
    destruct (IH (fun x Hx => Hok x (or_intror Hx))
                (with_store (delete (KeyValue.Key v) (CBStore st)) st))
      as (st' & Hrun & Hmir & Hin & Hout).
    exists st'. split; [exact Hrun|]. split; [exact Hmir|]. split.
    + intros k Hk.
      destruct (in_dec String.string_dec k (List.map KeyValue.Key l1)) as [Hl|Hl];
        [by apply Hin|].
      rewrite Hout by done. destruct Hk as [<-|Hk]; [|done]. cbn. apply lookup_delete_eq.
    + intros k Hk. cbn in Hk. rewrite Hout by tauto. cbn.
      apply lookup_delete_ne. tauto.
Qed.

(** X6: with the listing answering and no delete failing, [DelAllConfig]
    returns no error and removes every entry whose key starts with
    [/config]; the other entries of the store and the in-process variables
    keep their values, and both listings are empty afterwards. *)
Theorem DelAllConfig_clears st :
  list_err F "/config" = None ->
  (forall k, D k = None) ->
  exists st',
    DelAllConfig F D st = (None, st')
    /\ (forall k, String.prefix "/config" k = true -> CBStore st' !! k = None)
    /\ (forall k, String.prefix "/config" k = false -> CBStore st' !! k = CBStore st !! k)
    /\ mirrors st' = mirrors st
    /\ ListConfig F st' = (None, None)
    /\ ListConfigId F st' = [].
Proof.
  intros Hl HD.
  assert (Hmain : exists st',
    DelAllConfig F D st = (None, st')
    /\ (forall k, String.prefix "/config" k = true -> CBStore st' !! k = None)
    /\ (forall k, String.prefix "/config" k = false -> CBStore st' !! k = CBStore st !! k)
    /\ mirrors st' = mirrors st).
  { unfold DelAllConfig.
    pose proof (fun kv => GetList_In F "/config" st kv Hl) as Hmem.
    destruct (GetList F "/config" true st) as [keyValue err]. cbn [fst] in Hmem.
    assert (Hkeys : forall k, In k (List.map KeyValue.Key keyValue)
                      <-> is_Some (CBStore st !! k) /\ String.prefix "/config" k = true).
    { intros k. rewrite in_map_iff. split.
      - intros (kv & <- & Hin). apply Hmem in Hin as [Hk Hp]. eauto.
      - intros [[d Hd] Hp]. exists (KeyValue.mk k d). split; [reflexivity|].
        apply Hmem. done. }
    destruct (deleteEach_all keyValue st HD) as (st' & Hrun & Hmir & Hin & Hout).
    destruct (Nat.eqb_spec (length keyValue) 0) as [Hlen|Hlen].
    - exists st. split; [reflexivity|]. split; [|done].
      intros k Hp. destruct (CBStore st !! k) as [d|] eqn:Hk; [|done].
      assert (Hmemk : In k (List.map KeyValue.Key keyValue)) by (apply Hkeys; eauto).
      destruct keyValue; [destruct Hmemk|discriminate].
    - exists st'. split; [exact Hrun|]. split; [|split; [|exact Hmir]].
      + intros k Hp.
        destruct (in_dec String.string_dec k (List.map KeyValue.Key keyValue)) as [Hi|Hi];
          [by apply Hin|].
        rewrite Hout by done.
        destruct (CBStore st !! k) as [d|] eqn:Hk; [|done].
        destruct Hi. apply Hkeys. eauto.
      + intros k Hp. apply Hout. intros Hi. apply Hkeys in Hi as [_ Hp']. congruence. }
  destruct Hmain as (st' & Hrun & Hgone & Hkept & Hmir).
  exists st'. split; [exact Hrun|]. split; [exact Hgone|]. split; [exact Hkept|].
  split; [exact Hmir|].
  assert (Hnil : (GetList F "/config" true st').1 = []).
  { apply empty_of_no_member. intros kv Hin.
    apply (GetList_In F "/config" st' kv Hl) in Hin as [Hk Hp].
    rewrite (Hgone _ Hp) in Hk. discriminate. }
  unfold ListConfig, ListConfigId.
  destruct (GetList F "/config" true st') as [keyValue err] eqn:Hgl.
  cbn [fst] in Hnil. subst keyValue.
  assert (err = None) as ->.
  { unfold GetList in Hgl. rewrite Hl in Hgl. by inversion Hgl. }
  split; reflexivity.
Qed.

(** X7: [DelAllConfig] stops at the first delete that fails: with the
    entries listed in the order [l1], [kv], [l2], the deletes of [l1]
    succeeding and the delete of [kv] failing, it returns the error of that
    delete, the entries of [l1] are gone, and every other entry of the store
    (that of [kv], those of [l2], those outside the listing) and the
    in-process variables are as before. *)
Theorem DelAllConfig_stops_at_first_failure st l1 kv l2 m :
  (GetList F "/config" true st).1 = l1 ++ kv :: l2 ->
  (forall x, In x l1 -> D (KeyValue.Key x) = None) ->
  D (KeyValue.Key kv) = Some m ->
  exists st',
    DelAllConfig F D st = (Some (StoreError m), st')
    /\ (forall k, In k (List.map KeyValue.Key l1) -> CBStore st' !! k = None)
    /\ (forall k, ~ In k (List.map KeyValue.Key l1) -> CBStore st' !! k = CBStore st !! k)
    /\ mirrors st' = mirrors st.
Proof.
  intros Hlist Hok Hfail. unfold DelAllConfig.
  destruct (GetList F "/config" true st) as [keyValue err]. cbn [fst] in Hlist.
  subst keyValue.
  destruct (deleteEach_stops l1 kv l2 st m Hok Hfail) as (st' & Hrun & Hmir & Hin & Hout).
  exists st'. rewrite length_app. cbn [length].
  replace (length l1 + S (length l2) =? 0)%nat with false
    by (symmetry; apply Nat.eqb_neq; lia).
  done.
Qed.

(** X8: when the listing of the store fails, [ListConfig] returns the
    error, while [ListConfigId] returns an empty result and [DelAllConfig]
    reports success without deleting anything. *)
Theorem listing_failure_is_dropped st m :
  list_err F "/config" = Some m ->
  ListConfig F st = (None, Some (StoreError m))
  /\ ListConfigId F st = []
  /\ DelAllConfig F D st = (None, st).
Proof.
  intros Hl. unfold ListConfig, ListConfigId, DelAllConfig, GetList. rewrite Hl.
  split; [reflexivity|]. split; reflexivity.
Qed.

Lemma UpdateEnv_frame id st e st2 :
  UpdateEnv F id st = Returns (e, st2) ->
  CBStore st2 = CBStore st
  /\ (forall id', id' <> id -> mirror id' st2 = mirror id' st)
  /\ (e <> None -> st2 = st).
Proof.
  unfold UpdateEnv. destruct (GetConfig F id st) as [[configInfo [err|]]|]; intros H;
    [inversion H; subst; split; [done|split; [done|done]]| |discriminate].
  inversion H as [[He Hst]]. clear H He. split; [|split; [|done]].
  - repeat (destruct (String.eqb id _); [reflexivity|]). reflexivity.
  - intros id' Hne. unfold mirror.
    repeat match goal with
    | |- context [String.eqb id ?k] =>
        destruct (String.eqb_spec id k) as [->|?];
          [repeat match goal with
                  | |- context [String.eqb id' ?k'] =>
                      destruct (String.eqb_spec id' k') as [->|?]; [done|]
                  end; reflexivity|]
    end.
    reflexivity.
Qed.

(** X9: whatever [UpdateConfig] returns, the object is the one built from
    the request; the entries of the store under other keys and the mirror
    variables of other keys are as before; and when it returns an error the
    whole state is as before. *)
Theorem UpdateConfig_frame u st c e st' :
  UpdateConfig F u st = Returns (c, e, st') ->
  c = infoOf u
  /\ (forall k, k <> keyOf u -> CBStore st' !! k = CBStore st !! k)
  /\ (forall id, id <> ConfigReq.Name u -> mirror id st' = mirror id st)
  /\ (e <> None -> st' = st).
Proof.
  unfold UpdateConfig, Put, Marshal.
  change (ConfigInfo.mk (ConfigReq.Name u) (ConfigReq.Name u) (ConfigReq.Value u))
    with (infoOf u).
  change ("/config/" +:+ ConfigInfo.Id (infoOf u)) with (keyOf u).
  change (ConfigInfo.Id (infoOf u)) with (ConfigReq.Name u).
  destruct (put_err F (keyOf u) (DocConfig (infoOf u))) as [m|].
  { intros H. inversion H; subst. done. }
  destruct (Get F (keyOf u) _) as [[kv|] gerr]; [|discriminate].
  destruct (UpdateEnv F (ConfigReq.Name u) _) as [[e2 st2]|] eqn:Henv; [|discriminate].
  intros H. inversion H; subst. clear H.
  apply UpdateEnv_frame in Henv as (Hstore & Hmirror & _).
  split; [done|]. split; [|split; [|done]].
  - intros k Hk. rewrite Hstore. cbn. by apply lookup_insert_ne.
  - intros id Hid. rewrite Hmirror by done. reflexivity.
Qed.

End ConfigCleanup.

(** * More on CreateVNet: the other ways out, and what a call leaves *)

Section VNetMore.
Import VNet.
Variable E : Env.

Lemma CheckString_error name e :
  CheckString E name = Some e -> e = CheckStringError name.
Proof.
  unfold CheckString. intros H. repeat case_match; simplify_eq; reflexivity.
Qed.

Lemma validate_Struct_error u e :
  validate_Struct E u = Some e -> exists fes, e = ValidationErrors fes.
Proof.
  unfold validate_Struct. intros H. case_match; simplify_eq. eauto.
Qed.

Lemma createSubnets_frame nsId vNetId l w k :
  (forall r o m, (subnetImpl E nsId vNetId r o m).1 !! k = m !! k) ->
  kv (createSubnets E nsId vNetId l w) !! k = kv w !! k.
Proof.
  intros Hframe. revert w. induction l as [|v l IH]; intros w; cbn; [done|].
  unfold CreateSubnet.
  pose proof (Hframe (subnetReqOf v) true (kv w)) as Hk.
  destruct (subnetImpl E _ _ _ _ _) as [m err]. rewrite IH. exact Hk.
Qed.

Lemma fold_append_from_nil {A B : Type} (g : A -> B) (l : list A) :
  fold_left (fun acc v => append acc (g v)) l None
  = match l with [] => None | _ :: _ => Some (List.map g l) end.
Proof.
  assert (Hgen : forall l acc, l <> [] ->
            fold_left (fun acc v => append acc (g v)) l acc
            = Some (elems acc ++ List.map g l)).
  { clear l. induction l as [|v l IH]; intros acc Hne; [done|].
    cbn [fold_left List.map]. destruct l as [|v' l'].
    - reflexivity.
    - rewrite IH by done. unfold append at 1. cbn [elems default id].
      by rewrite <- app_assoc. }
  destruct l as [|v l]; [reflexivity|]. by rewrite Hgen.
Qed.

(** The driver request of a call, when there is one. *)
Lemma emitted_http nsId u option w req :
  In (EvHttp req) (emitted E nsId u option w) ->
  req = requestOf E u option (genUid E (uidSeq w)).
Proof.
  intros Hin.
  pose proof (CreateVNet_Run E nsId u option w) as R.
  destruct (CreateVNet E nsId u option w) as [[res oe] w'].
  remember (emitted E nsId u option w) as evs eqn:Hevs. clear Hevs.
  cbn [fst snd] in *.
  destruct R; try (by destruct Hin).
  - destruct Hin as [Heq|[]]. by inversion Heq.
  - destruct Hin as [Heq|[]]. by inversion Heq.
  - cbn in Hin. destruct Hin as [Heq|[Heq|Hin]]; [by inversion Heq|discriminate|].
    by apply subnetEvents_no_http in Hin.
  - cbn in Hin. destruct Hin as [Heq|[Heq|Hin]]; [by inversion Heq|discriminate|].
    apply in_app_or in Hin as [Hin|[Heq|[]]]; [|discriminate].
    by apply subnetEvents_no_http in Hin.
Qed.

Lemma CreateVNet_duplicate nsId u option w :
  CheckString E nsId = None -> validate_Struct E u = None ->
  kv_get_err E (trace w) (vNetKey nsId u) = None ->
  is_Some (kv w !! vNetKey nsId u) ->
  CreateVNet E nsId u option w
  = ((TbVNetInfo.zero, Some (AlreadyExists (TbVNetReq.Name u))), w).
Proof.
  intros Hns Hreq Hget [d Hd].
  pose proof (CreateVNet_Run E nsId u option w) as R.
  destruct (CreateVNet E nsId u option w) as [[res oe] w'].
  remember (emitted E nsId u option w) as evs eqn:Hevs. clear Hevs.
  cbn [fst snd] in *.
  destruct R; try subst key; congruence.
Qed.

(** X10: CreateVNet succeeds whenever the nsId and the request pass the
    validation, the id is free, and the driver, the write of the object and
    the write of the label succeed: an error of CreateSubnet or of the read
    back does not make the call fail.  The label entry then holds the key of
    the vNet with the labels provider and namespace, and one uid was drawn. *)
Theorem CreateVNet_succeeds nsId u option w callResult :
  CheckString E nsId = None ->
  validate_Struct E u = None ->
  kv_get_err E (trace w) (vNetKey nsId u) = None ->
  kv w !! vNetKey nsId u = None ->
  driver E (requestOf E u option (genUid E (uidSeq w))) = inr callResult ->
  kv_put_err E (vNetKey nsId u)
    (DocVNet (contentOf u option (genUid E (uidSeq w)) callResult)) = None ->
  label_err E (labelKey (genUid E (uidSeq w))) = None ->
  (CreateVNet E nsId u option w).1.2 = None
  /\ kv (CreateVNet E nsId u option w).2 !! labelKey (genUid E (uidSeq w))
     = Some (DocLabel (LabelInfo.mk (vNetKey nsId u)
                         [("provider", "cb-tumblebug"); ("namespace", nsId)]))
  /\ uidSeq (CreateVNet E nsId u option w).2 = S (uidSeq w).
Proof.
  intros Hns Hreq Hget Hfree Hdrv Hput Hlab.
  pose proof (CreateVNet_Run E nsId u option w) as R.
  destruct (CreateVNet E nsId u option w) as [[res oe] w'].
  remember (emitted E nsId u option w) as evs eqn:Hevs. clear Hevs.
  cbn [fst snd] in *.
  destruct R; try congruence.
  - destruct H2 as [d Hd]. congruence.
  - subst req. congruence.
  - subst req content uuid. assert (callResult0 = callResult) as -> by congruence.
    congruence.
  - subst req content uuid key. assert (callResult0 = callResult) as -> by congruence.
    congruence.
  - split; [reflexivity|]. cbn [kv uidSeq]. split; [apply lookup_insert_eq|].
    subst ws. by rewrite createSubnets_uidSeq.
Qed.

(** X11: a call either returns an error and leaves the world as it was, or
    sends exactly one request to the driver, as the first event of the call,
    and draws exactly one uid. *)
Theorem CreateVNet_one_driver_request nsId u option w :
  (emitted E nsId u option w = []
   /\ (CreateVNet E nsId u option w).2 = w
   /\ (CreateVNet E nsId u option w).1.2 <> None)
  \/ (exists rest,
        emitted E nsId u option w
        = EvHttp (requestOf E u option (genUid E (uidSeq w))) :: rest
        /\ (forall r, ~ In (EvHttp r) rest)
        /\ uidSeq (CreateVNet E nsId u option w).2 = S (uidSeq w)).
Proof.
  pose proof (CreateVNet_Run E nsId u option w) as R.
  destruct (CreateVNet E nsId u option w) as [[res oe] w'].
  remember (emitted E nsId u option w) as evs eqn:Hevs. clear Hevs.
  cbn [fst snd] in *.
  destruct R; try (left; done).
  - right. exists []. split; [reflexivity|]. split; [intros r []|reflexivity].
  - right. exists []. split; [reflexivity|]. split; [intros r []|reflexivity].
  - right. eexists. split; [reflexivity|]. split.
    + intros r [Heq|Hin]; [discriminate|]. by apply subnetEvents_no_http in Hin.
    + subst ws. by rewrite createSubnets_uidSeq.
  - right. eexists. split; [reflexivity|]. split.
    + intros r [Heq|Hin]; [discriminate|].
      apply in_app_or in Hin as [Hin|[Heq|[]]]; [|discriminate].
      by apply subnetEvents_no_http in Hin.
    + cbn [uidSeq]. subst ws. by rewrite createSubnets_uidSeq.
Qed.

(** X12: when the read of the store for the existence check fails, the call
    ends with "Failed to check the existence of the vNet ..." (the error of
    the store is not passed on) and the world is as it was, whether or not
    the vNet is in the store. *)
Theorem CreateVNet_existence_check_failure nsId u option w m :
  CheckString E nsId = None ->
  validate_Struct E u = None ->
  kv_get_err E (trace w) (vNetKey nsId u) = Some m ->
  CreateVNet E nsId u option w
  = ((TbVNetInfo.zero, Some (ExistenceCheckFailed (TbVNetReq.Name u))), w)
  /\ Error (ExistenceCheckFailed (TbVNetReq.Name u))
     = Some ("Failed to check the existence of the vNet " +:+ TbVNetReq.Name u +:+ ".").
Proof.
  intros Hns Hreq Hget. split; [|reflexivity].
  pose proof (CreateVNet_Run E nsId u option w) as R.
  destruct (CreateVNet E nsId u option w) as [[res oe] w'].
  remember (emitted E nsId u option w) as evs eqn:Hevs. clear Hevs.
  cbn [fst snd] in *.
  destruct R; try subst key; congruence.
Qed.

(** X13: the request sent to the driver: a GET on [{base}/vpc/{u.Name}] for
    option [register] without cspVNetId, a POST on [{base}/regvpc] for
    option [register] with a cspVNetId, and a POST on [{base}/vpc] for every
    other option string. *)
Theorem CreateVNet_endpoint nsId u option w req :
  In (EvHttp req) (emitted E nsId u option w) ->
  (option = "register" /\ TbVNetReq.CspVNetId u = ""
   /\ HttpRequest.method req = "GET"
   /\ HttpRequest.url req = SpiderRestUrl E +:+ "/vpc/" +:+ TbVNetReq.Name u)
  \/ (option = "register" /\ TbVNetReq.CspVNetId u <> ""
      /\ HttpRequest.method req = "POST"
      /\ HttpRequest.url req = SpiderRestUrl E +:+ "/regvpc")
  \/ (option <> "register"
      /\ HttpRequest.method req = "POST"
      /\ HttpRequest.url req = SpiderRestUrl E +:+ "/vpc").
Proof.
  intros Hin. apply emitted_http in Hin as ->.
  unfold requestOf, endpointOf. cbn [HttpRequest.method HttpRequest.url].
  destruct (String.eqb_spec option "register") as [->|Hopt];
    destruct (String.eqb_spec (TbVNetReq.CspVNetId u) "") as [Hid|Hid];
    cbn [andb negb fst snd].
  - left. done.
  - right. left. done.
  - right. right. done.
  - right. right. done.
Qed.

(** X14: the body of the request sent to the driver: the connection name,
    the CIDR block and the CSP id of the tenant's request, the uid as VPC
    name, and one subnet per subnet of the tenant's request, in order, with
    its name, IPv4_CIDR and key-value list; the list is nil when the
    tenant's request has no subnet. *)
Theorem CreateVNet_request_body nsId u option w req :
  In (EvHttp req) (emitted E nsId u option w) ->
  HttpRequest.body req
  = SpiderVPCReqInfoWrapper.mk (TbVNetReq.ConnectionName u)
      (SpiderVPCReqInfo.mk (genUid E (uidSeq w)) (TbVNetReq.CidrBlock u)
         (match elems (TbVNetReq.SubnetInfoList u) with
          | [] => None
          | l =>
              Some (List.map
                      (fun v => SpiderSubnetReqInfo.mk (TbSubnetReq.Name v)
                                  (TbSubnetReq.IPv4_CIDR v) (TbSubnetReq.KeyValueList v))
                      l)
          end)
         (TbVNetReq.CspVNetId u)).
Proof.
  intros Hin. apply emitted_http in Hin as ->.
  unfold requestOf, requestBodyOf. cbv zeta. cbn [HttpRequest.body].
  rewrite (fold_append_from_nil
             (fun v => SpiderSubnetReqInfo.mk (TbSubnetReq.Name v)
                         (SpiderSubnetReqInfo.IPv4_CIDR (toSpiderSubnetReqInfo v))
                         (SpiderSubnetReqInfo.KeyValueList (toSpiderSubnetReqInfo v)))).
  by destruct (elems (TbVNetReq.SubnetInfoList u)).
Qed.

End VNetMore.

Section VNetAftermath.
Import VNet.
Variable E : Env.

Lemma createSubnets_trace_grows nsId vNetId l w req key content :
  trace (createSubnets E nsId vNetId l (stored w req key content)) <> trace w.
Proof.
  rewrite createSubnets_trace. cbn [stored trace]. intros Heq.
  apply (f_equal (@length Event)) in Heq. rewrite !length_app in Heq. cbn in Heq. lia.
Qed.

(** X15: when the call succeeds but the read back of the object fails, the
    caller gets the empty object with no error, although the vNet was
    written to the store under the name of the request. *)
Theorem CreateVNet_read_back_failure nsId u option w m :
  (CreateVNet E nsId u option w).1.2 = None ->
  (forall h, h <> trace w -> kv_get_err E h (vNetKey nsId u) = Some m) ->
  (CreateVNet E nsId u option w).1.1 = TbVNetInfo.zero
  /\ exists c, In (EvPut (vNetKey nsId u) (DocVNet c)) (emitted E nsId u option w)
               /\ TbVNetInfo.Id c = TbVNetReq.Name u.
Proof.
  intros Hok Hreads.
  destruct (CreateVNet_created E nsId u option w Hok)
    as (callResult & _ & _ & Hres & _ & Hev).
  cbn zeta in *. split.
  - rewrite Hres. unfold readBack, GetKv.
    rewrite Hreads by apply createSubnets_trace_grows. reflexivity.
  - eexists. rewrite Hev. split; [right; left; reflexivity|reflexivity].
Qed.

(** X16: when the write of the label fails, the call returns the label's
    error with the object built from the request and the driver's answer,
    but the vNet stays in the store (given that CreateSubnet changes at most
    its subnet list): a new Create of the same request, with the store
    answering the existence check, ends with the already-exists error. *)
Theorem CreateVNet_label_failure_keeps_vNet nsId u option w m :
  (CreateVNet E nsId u option w).1.2 = Some (LabelError m) ->
  subnetsKeep E ->
  kv_get_err E (trace (CreateVNet E nsId u option w).2) (vNetKey nsId u) = None ->
  exists callResult c,
    driver E (requestOf E u option (genUid E (uidSeq w))) = inr callResult
    /\ (CreateVNet E nsId u option w).1.1
       = contentOf u option (genUid E (uidSeq w)) callResult
    /\ kv (CreateVNet E nsId u option w).2 !! vNetKey nsId u = Some (DocVNet c)
    /\ sameButSubnets (contentOf u option (genUid E (uidSeq w)) callResult) c
    /\ forall option',
         CreateVNet E nsId u option' (CreateVNet E nsId u option w).2
         = ((TbVNetInfo.zero, Some (AlreadyExists (TbVNetReq.Name u))),
            (CreateVNet E nsId u option w).2).
Proof.
  intros Herr Hkeep Hget.
  pose proof (CreateVNet_Run E nsId u option w) as R.
  destruct (CreateVNet E nsId u option w) as [[res oe] w'].
  remember (emitted E nsId u option w) as evs eqn:Hevs. clear Hevs.
  cbn [fst snd] in *. subst oe.
  inversion R as [e He| e ? He| | | | |callResult m' ? ? ? ? ? Hns Hreq Hg Hfree Hdrv Hput Hlab| ];
    subst.
  - apply CheckString_error in He. discriminate.
  - apply validate_Struct_error in He as [fes ?]. discriminate.
  - destruct (createSubnets_keep E nsId (TbVNetReq.Name u)
                (elems (SpiderVPCInfo.SubnetInfoList callResult))
                (stored w req key content) key content Hkeep) as (c & Hc & Hsame).
    { cbn. apply lookup_insert_eq. }
    exists callResult, c. split; [exact Hdrv|]. split; [reflexivity|].
    split; [exact Hc|]. split; [exact Hsame|].
    intros option'. apply CreateVNet_duplicate; eauto.
Qed.

(** X17: after a call that ended with the error of the store's write, a new
    Create of the same request, with the store answering the existence
    check, sends a second request to the driver, under the next uid. *)
Theorem CreateVNet_retry_after_put_failure nsId u option w m :
  (CreateVNet E nsId u option w).1.2 = Some (KvError m) ->
  kv_get_err E (trace (CreateVNet E nsId u option w).2) (vNetKey nsId u) = None ->
  exists rest,
    emitted E nsId u option (CreateVNet E nsId u option w).2
    = EvHttp (requestOf E u option (genUid E (S (uidSeq w)))) :: rest.
Proof.
  intros Herr Hget.
  assert (Hfirst : CheckString E nsId = None /\ validate_Struct E u = None
                   /\ kv (CreateVNet E nsId u option w).2 !! vNetKey nsId u = None
                   /\ uidSeq (CreateVNet E nsId u option w).2 = S (uidSeq w)).
  { pose proof (CreateVNet_Run E nsId u option w) as R.
    destruct (CreateVNet E nsId u option w) as [[res oe] w'].
    remember (emitted E nsId u option w) as evs eqn:Hevs. clear Hevs.
    cbn [fst snd] in *. subst oe.
    inversion R as [e He| e ? He| | | |callResult m' ? ? ? Hns Hreq Hg Hfree Hdrv Hput| | ];
      subst.
    - apply CheckString_error in He. discriminate.
    - apply validate_Struct_error in He as [fes ?]. discriminate.
    - done. }
  destruct Hfirst as (Hns & Hreq & Hfree & Huid).
  remember (CreateVNet E nsId u option w).2 as w1 eqn:Hw1. clear Hw1 Herr.
  pose proof (CreateVNet_Run E nsId u option w1) as R.
  destruct (CreateVNet E nsId u option w1) as [[res oe] w'].
  remember (emitted E nsId u option w1) as evs eqn:Hevs. clear Hevs.
  cbn [fst snd] in *.
  destruct R; try congruence.
  - destruct H2 as [d Hd]. congruence.
  - subst req. rewrite Huid. eauto.
  - subst req uuid. rewrite Huid. eauto.
  - subst req uuid. rewrite Huid. cbn [app]. eauto.
  - subst req uuid. rewrite Huid. cbn [app]. eauto.
Qed.

(** X18: a call changes the store at most under the key of the vNet and
    under the key of its label, and where CreateSubnet changes it: an entry
    under any other key that CreateSubnet leaves alone is as before. *)
Theorem CreateVNet_store_frame nsId u option w k :
  k <> vNetKey nsId u ->
  k <> labelKey (genUid E (uidSeq w)) ->
  (forall r o m, (subnetImpl E nsId (TbVNetReq.Name u) r o m).1 !! k = m !! k) ->
  kv (CreateVNet E nsId u option w).2 !! k = kv w !! k.
Proof.
  intros Hk1 Hk2 Hframe.
  pose proof (CreateVNet_Run E nsId u option w) as R.
  destruct (CreateVNet E nsId u option w) as [[res oe] w'].
  remember (emitted E nsId u option w) as evs eqn:Hevs. clear Hevs.
  cbn [fst snd] in *.
  destruct R; try reflexivity.
  - subst ws. rewrite createSubnets_frame by exact Hframe. cbn.
    by rewrite lookup_insert_ne.
  - cbn [kv]. subst ws uuid key. rewrite lookup_insert_ne by done.
    rewrite createSubnets_frame by exact Hframe. cbn.
    by rewrite lookup_insert_ne.
Qed.

(** X19: the object a successful call writes to the store carries the
    system label of its mode ("Registered from CB-Spider resource" for
    option [register] without cspVNetId, "Registered from CSP resource" for
    option [register] with one, none otherwise), the key-value list and the
    SystemId of the driver's answer (not the cspVNetId of the request), an
    empty status and a nil subnet list. *)
Theorem CreateVNet_stored_object nsId u option w :
  (CreateVNet E nsId u option w).1.2 = None ->
  exists callResult c,
    driver E (requestOf E u option (genUid E (uidSeq w))) = inr callResult
    /\ In (EvPut (vNetKey nsId u) (DocVNet c)) (emitted E nsId u option w)
    /\ TbVNetInfo.SystemLabel c
       = (if String.eqb option "register" then
            if String.eqb (TbVNetReq.CspVNetId u) "" then
              "Registered from CB-Spider resource"
            else "Registered from CSP resource"
          else "")
    /\ TbVNetInfo.KeyValueList c = SpiderVPCInfo.KeyValueList callResult
    /\ TbVNetInfo.CspVNetId c = IID.SystemId (SpiderVPCInfo.IId callResult)
    /\ TbVNetInfo.Status c = ""
    /\ TbVNetInfo.IsAutoGenerated c = false
    /\ TbVNetInfo.SubnetInfoList c = None.
Proof.
  intros Hok.
  destruct (CreateVNet_created E nsId u option w Hok)
    as (callResult & Hdrv & _ & _ & _ & Hev).
  cbn zeta in *. exists callResult. eexists. split; [exact Hdrv|].
  split; [rewrite Hev; right; left; reflexivity|].
  split; [|done]. cbn.
  destruct (String.eqb option "register"), (String.eqb (TbVNetReq.CspVNetId u) "");
    reflexivity.
Qed.

End VNetAftermath.

Section VNetValidation.
Import VNet.
Variable E : Env.

Lemma validate_Struct_verdict u :
  validate_Struct E u = None
  <-> TbVNetReq.Name u <> "" /\ TbVNetReq.ConnectionName u <> ""
      /\ CheckString E (TbVNetReq.Name u) = None.
Proof.
  unfold validate_Struct, required, TbVNetReqStructLevelValidation.
  destruct (String.eqb_spec (TbVNetReq.Name u) "") as [Hn|Hn];
    destruct (String.eqb_spec (TbVNetReq.ConnectionName u) "") as [Hc|Hc];
    destruct (CheckString E (TbVNetReq.Name u)) as [e|]; cbn;
    split; try discriminate; try tauto; intros (? & ? & ?); done.
Qed.

(** X20: CreateVNet ends with a validation error exactly when
    [CheckString] rejects the nsId or the name of the request, or the name
    or the connectionName of the request is empty; no other field of the
    request is checked. *)
Theorem CreateVNet_validation_verdict nsId u option w :
  (exists e, (CreateVNet E nsId u option w).1.2 = Some e /\ kindOf e = Validation)
  <-> (CheckString E nsId <> None \/ TbVNetReq.Name u = ""
       \/ TbVNetReq.ConnectionName u = "" \/ CheckString E (TbVNetReq.Name u) <> None).
Proof.
  split.
  - intros (e & He & Hkind).
    destruct (CheckString E nsId) as [e0|] eqn:Hns; [left; done|]. right.
    destruct (validate_Struct E u) as [e1|] eqn:Hreq.
    + destruct (String.eqb_spec (TbVNetReq.Name u) "") as [Hn|Hn]; [tauto|].
      destruct (String.eqb_spec (TbVNetReq.ConnectionName u) "") as [Hc|Hc]; [tauto|].
      destruct (CheckString E (TbVNetReq.Name u)) as [e2|] eqn:Hcs; [right; right; done|].
      assert (validate_Struct E u = None) by (by apply validate_Struct_verdict).
      congruence.
    + exfalso.
      pose proof (CreateVNet_Run E nsId u option w) as R.
      destruct (CreateVNet E nsId u option w) as [[res oe] w'].
      remember (emitted E nsId u option w) as evs eqn:Hevs. clear Hevs.
      cbn [fst snd] in *. subst oe.
      inversion R; subst; try discriminate; congruence.
  - intros Hbad. unfold CreateVNet.
    destruct (CheckString E nsId) as [e0|] eqn:Hns.
    { exists e0. split; [reflexivity|]. by eapply CheckString_Validation. }
    destruct (validate_Struct E u) as [e1|] eqn:Hreq.
    { exists e1. split; [reflexivity|]. by eapply validate_Struct_Validation. }
    exfalso. apply validate_Struct_verdict in Hreq as (Hn & Hc & Hcs).
    destruct Hbad as [H|[H|[H|H]]]; done.
Qed.

End VNetValidation.

(** * Worked examples for the further properties *)


Lemma GetConfig_returns_stored_witness :
  Config.GetConfig Config.noFaults "DB_USER" Config.mistypedState
  = Config.Returns
      (match Config.DocMistyped "{id:DB_USER,name:DB_USER,value:42}" (Some "DB_USER")
               (Some "DB_USER") None with
       | Config.DocConfig c => (c, None)
       | Config.DocRaw s => (Config.ConfigInfo.zero, Some (Config.UnmarshalError s))
       | Config.DocMistyped s i n v =>
           (Config.ConfigInfo.mk (default "" i) (default "" n) (default "" v),
            Some (Config.UnmarshalError s))
       end).
Proof.
  apply (GetConfig_returns_stored Config.noFaults "DB_USER" Config.mistypedState
           (Config.DocMistyped "{id:DB_USER,name:DB_USER,value:42}" (Some "DB_USER")
              (Some "DB_USER") None)).
  - discriminate.
  - reflexivity.
  - reflexivity.
Defined.

Lemma mixedState_decodes : Config.configTreeDecodes Config.mixedState.
Proof.
  intros k d Hk Hc. cbn in Hk.
  apply lookup_insert_Some in Hk as [[<- <-]|[_ Hk]]; [eauto|].
  apply lookup_insert_Some in Hk as [[<- <-]|[_ Hk]]; [discriminate Hc|].
  apply lookup_insert_Some in Hk as [[<- <-]|[_ Hk]]; [discriminate Hc|].
  rewrite lookup_empty in Hk. discriminate.
Qed.

Lemma ListConfig_lists_children_witness :
  exists l,
    Config.ListConfig Config.noFaults Config.mixedState
    = (match l with [] => None | _ :: _ => Some l end, None)
    /\ forall c, In c l
         <-> exists k, Config.isChild "/config" k = true
                       /\ Config.CBStore Config.mixedState !! k = Some (Config.DocConfig c).
Proof.
  apply (ListConfig_lists_children Config.noFaults Config.mixedState).
  - reflexivity.
  - exact mixedState_decodes.
Defined.


Lemma ListConfigId_lists_keys_witness :
  (forall x, In x (Config.ListConfigId Config.noFaults Config.mixedState)
     <-> exists k, is_Some (Config.CBStore Config.mixedState !! k)
                   /\ String.prefix "/config" k = true
                   /\ x = Config.TrimPrefix k "/config/")
  /\ (forall id, is_Some (Config.CBStore Config.mixedState !! ("/config/" +:+ id)) ->
                 In id (Config.ListConfigId Config.noFaults Config.mixedState)).
Proof.
  apply (ListConfigId_lists_keys Config.noFaults Config.mixedState).
  reflexivity.
Defined.

Lemma DelAllConfig_clears_witness :
  exists st',
    Config.DelAllConfig Config.noFaults (fun _ => None) Config.mixedState = (None, st')
    /\ (forall k, String.prefix "/config" k = true -> Config.CBStore st' !! k = None)
    /\ (forall k, String.prefix "/config" k = false ->
                  Config.CBStore st' !! k = Config.CBStore Config.mixedState !! k)
    /\ Config.mirrors st' = Config.mirrors Config.mixedState
    /\ Config.ListConfig Config.noFaults st' = (None, None)
    /\ Config.ListConfigId Config.noFaults st' = [].
Proof.
  apply (DelAllConfig_clears Config.noFaults (fun _ => None) Config.mixedState).
  - reflexivity.
  - reflexivity.
Defined.

Lemma DelAllConfig_stops_at_first_failure_witness :
  exists st',
    Config.DelAllConfig Config.noFaults
      (fun k => if String.eqb k "/config/DB_URL" then Some "store: delete failed" else None)
      Config.mixedState
    = (Some (Config.StoreError "store: delete failed"), st')
    /\ (forall k,
          In k (List.map Config.KeyValue.Key
                  [Config.KeyValue.mk "/config/feature/beta" (Config.DocRaw "on")]) ->
          Config.CBStore st' !! k = None)
    /\ (forall k,
          ~ In k (List.map Config.KeyValue.Key
                    [Config.KeyValue.mk "/config/feature/beta" (Config.DocRaw "on")]) ->
          Config.CBStore st' !! k = Config.CBStore Config.mixedState !! k)
    /\ Config.mirrors st' = Config.mirrors Config.mixedState.
Proof.
  apply (DelAllConfig_stops_at_first_failure Config.noFaults
           (fun k => if String.eqb k "/config/DB_URL" then Some "store: delete failed"
                     else None)
           Config.mixedState
           [Config.KeyValue.mk "/config/feature/beta" (Config.DocRaw "on")]
           (Config.KeyValue.mk "/config/DB_URL"
              (Config.DocConfig (Config.ConfigInfo.mk "DB_URL" "DB_URL" "localhost:3306")))
           [] "store: delete failed").
  - vm_compute. reflexivity.
  - intros x [<-|[]]. reflexivity.
  - reflexivity.
Defined.

Lemma listing_failure_is_dropped_witness :
  Config.ListConfig Config.listDown Config.mixedState
  = (None, Some (Config.StoreError "store: list failed"))
  /\ Config.ListConfigId Config.listDown Config.mixedState = []
  /\ Config.DelAllConfig Config.listDown (fun _ => None) Config.mixedState
     = (None, Config.mixedState).
Proof.
  apply (listing_failure_is_dropped Config.listDown (fun _ => None) Config.mixedState
           "store: list failed").
  reflexivity.
Defined.

Lemma UpdateConfig_frame_witness :
  Config.infoOf Config.sampleUpdate = Config.infoOf Config.sampleUpdate
  /\ (forall k, k <> Config.keyOf Config.sampleUpdate ->
        Config.CBStore Config.updatedSample !! k = Config.CBStore Config.sampleState !! k)
  /\ (forall id, id <> Config.ConfigReq.Name Config.sampleUpdate ->
        Config.mirror id Config.updatedSample = Config.mirror id Config.sampleState)
  /\ ((None : option Config.error) <> None -> Config.updatedSample = Config.sampleState).
Proof.
  apply (UpdateConfig_frame Config.noFaults Config.sampleUpdate Config.sampleState
           (Config.infoOf Config.sampleUpdate) None Config.updatedSample).
  reflexivity.
Defined.

Lemma CreateVNet_succeeds_witness :
  (VNet.CreateVNet VNet.demoEnv "ns01" VNet.demoReq "" VNet.emptyWorld).1.2 = None
  /\ VNet.kv (VNet.CreateVNet VNet.demoEnv "ns01" VNet.demoReq "" VNet.emptyWorld).2
       !! VNet.labelKey (VNet.genUid VNet.demoEnv (VNet.uidSeq VNet.emptyWorld))
     = Some (VNet.DocLabel
               (VNet.LabelInfo.mk (VNet.vNetKey "ns01" VNet.demoReq)
                  [("provider", "cb-tumblebug"); ("namespace", "ns01")]))
  /\ VNet.uidSeq (VNet.CreateVNet VNet.demoEnv "ns01" VNet.demoReq "" VNet.emptyWorld).2
     = S (VNet.uidSeq VNet.emptyWorld).
Proof.
  apply (CreateVNet_succeeds VNet.demoEnv "ns01" VNet.demoReq "" VNet.emptyWorld
           VNet.demoVPC).
  - reflexivity.
  - reflexivity.
  - reflexivity.
  - reflexivity.
  - reflexivity.
  - reflexivity.
  - reflexivity.
Defined.

Lemma CreateVNet_existence_check_failure_witness :
  VNet.CreateVNet VNet.checkDownEnv "ns01" VNet.demoReq "" VNet.emptyWorld
  = ((VNet.TbVNetInfo.zero,
      Some (VNet.ExistenceCheckFailed (VNet.TbVNetReq.Name VNet.demoReq))),
     VNet.emptyWorld)
  /\ VNet.Error (VNet.ExistenceCheckFailed (VNet.TbVNetReq.Name VNet.demoReq))
     = Some ("Failed to check the existence of the vNet "
             +:+ VNet.TbVNetReq.Name VNet.demoReq +:+ ".").
Proof.
  apply (CreateVNet_existence_check_failure VNet.checkDownEnv "ns01" VNet.demoReq ""
           VNet.emptyWorld "kvstore: get failed").
  - reflexivity.
  - reflexivity.
  - reflexivity.
Defined.

Lemma CreateVNet_endpoint_witness :
  ("register" = "register" /\ VNet.TbVNetReq.CspVNetId VNet.registerCspReq = ""
   /\ VNet.HttpRequest.method
        (VNet.requestOf VNet.demoEnv VNet.registerCspReq "register" "uid-a") = "GET"
   /\ VNet.HttpRequest.url
        (VNet.requestOf VNet.demoEnv VNet.registerCspReq "register" "uid-a")
      = VNet.SpiderRestUrl VNet.demoEnv +:+ "/vpc/"
        +:+ VNet.TbVNetReq.Name VNet.registerCspReq)
  \/ ("register" = "register" /\ VNet.TbVNetReq.CspVNetId VNet.registerCspReq <> ""
      /\ VNet.HttpRequest.method
           (VNet.requestOf VNet.demoEnv VNet.registerCspReq "register" "uid-a") = "POST"
      /\ VNet.HttpRequest.url
           (VNet.requestOf VNet.demoEnv VNet.registerCspReq "register" "uid-a")
         = VNet.SpiderRestUrl VNet.demoEnv +:+ "/regvpc")
  \/ ("register" <> "register"
      /\ VNet.HttpRequest.method
           (VNet.requestOf VNet.demoEnv VNet.registerCspReq "register" "uid-a") = "POST"
      /\ VNet.HttpRequest.url
           (VNet.requestOf VNet.demoEnv VNet.registerCspReq "register" "uid-a")
         = VNet.SpiderRestUrl VNet.demoEnv +:+ "/vpc").
Proof.
  apply (CreateVNet_endpoint VNet.demoEnv "ns01" VNet.registerCspReq "register"
           VNet.emptyWorld
           (VNet.requestOf VNet.demoEnv VNet.registerCspReq "register" "uid-a")).
  vm_compute. left. reflexivity.
Defined.

Lemma CreateVNet_request_body_witness :
  VNet.HttpRequest.body (VNet.requestOf VNet.demoEnv VNet.demoReq "" "uid-a")
  = VNet.SpiderVPCReqInfoWrapper.mk "aws-ap-northeast-2"
      (VNet.SpiderVPCReqInfo.mk "uid-a" "10.0.0.5/16"
         (Some [VNet.SpiderSubnetReqInfo.mk "subnet-a" "10.0.1.0/24" None]) "").
Proof.
  apply (CreateVNet_request_body VNet.demoEnv "ns01" VNet.demoReq "" VNet.emptyWorld
           (VNet.requestOf VNet.demoEnv VNet.demoReq "" "uid-a")).
  vm_compute. left. reflexivity.
Defined.

Lemma CreateVNet_read_back_failure_witness :
  (VNet.CreateVNet VNet.readBackDownEnv "ns01" VNet.demoReq "" VNet.emptyWorld).1.1
  = VNet.TbVNetInfo.zero
  /\ exists c,
       In (VNet.EvPut (VNet.vNetKey "ns01" VNet.demoReq) (VNet.DocVNet c))
         (VNet.emitted VNet.readBackDownEnv "ns01" VNet.demoReq "" VNet.emptyWorld)
       /\ VNet.TbVNetInfo.Id c = VNet.TbVNetReq.Name VNet.demoReq.
Proof.
  apply (CreateVNet_read_back_failure VNet.readBackDownEnv "ns01" VNet.demoReq ""
           VNet.emptyWorld "kvstore: get failed").
  - vm_compute. reflexivity.
  - intros [|ev h] Hh; [by destruct Hh|reflexivity].
Defined.

Lemma CreateVNet_label_failure_keeps_vNet_witness :
  exists callResult c,
    VNet.driver VNet.labelDownEnv
      (VNet.requestOf VNet.labelDownEnv VNet.demoReq ""
         (VNet.genUid VNet.labelDownEnv (VNet.uidSeq VNet.emptyWorld))) = inr callResult
    /\ (VNet.CreateVNet VNet.labelDownEnv "ns01" VNet.demoReq "" VNet.emptyWorld).1.1
       = VNet.contentOf VNet.demoReq ""
           (VNet.genUid VNet.labelDownEnv (VNet.uidSeq VNet.emptyWorld)) callResult
    /\ VNet.kv (VNet.CreateVNet VNet.labelDownEnv "ns01" VNet.demoReq "" VNet.emptyWorld).2
         !! VNet.vNetKey "ns01" VNet.demoReq = Some (VNet.DocVNet c)
    /\ VNet.sameButSubnets
         (VNet.contentOf VNet.demoReq ""
            (VNet.genUid VNet.labelDownEnv (VNet.uidSeq VNet.emptyWorld)) callResult) c
    /\ forall option',
         VNet.CreateVNet VNet.labelDownEnv "ns01" VNet.demoReq option'
           (VNet.CreateVNet VNet.labelDownEnv "ns01" VNet.demoReq "" VNet.emptyWorld).2
         = ((VNet.TbVNetInfo.zero,
             Some (VNet.AlreadyExists (VNet.TbVNetReq.Name VNet.demoReq))),
            (VNet.CreateVNet VNet.labelDownEnv "ns01" VNet.demoReq "" VNet.emptyWorld).2).
Proof.
  apply (CreateVNet_label_failure_keeps_vNet VNet.labelDownEnv "ns01" VNet.demoReq ""
           VNet.emptyWorld "label: put failed").
  - vm_compute. reflexivity.
  - exact demoEnv_subnetsKeep.
  - reflexivity.
Defined.

Lemma CreateVNet_retry_after_put_failure_witness :
  exists rest,
    VNet.emitted VNet.storeDownEnv "ns01" VNet.demoReq ""
      (VNet.CreateVNet VNet.storeDownEnv "ns01" VNet.demoReq "" VNet.emptyWorld).2
    = VNet.EvHttp
        (VNet.requestOf VNet.storeDownEnv VNet.demoReq ""
           (VNet.genUid VNet.storeDownEnv (S (VNet.uidSeq VNet.emptyWorld))))
      :: rest.
Proof.
  apply (CreateVNet_retry_after_put_failure VNet.storeDownEnv "ns01" VNet.demoReq ""
           VNet.emptyWorld "kvstore: put failed").
  - vm_compute. reflexivity.
  - reflexivity.
Defined.

Lemma CreateVNet_store_frame_witness :
  VNet.kv (VNet.CreateVNet VNet.demoEnv "ns01" VNet.demoReq "" VNet.emptyWorld).2
    !! "/ns/ns01/resources/vNet/other"
  = VNet.kv VNet.emptyWorld !! "/ns/ns01/resources/vNet/other".
Proof.
  apply (CreateVNet_store_frame VNet.demoEnv "ns01" VNet.demoReq "" VNet.emptyWorld
           "/ns/ns01/resources/vNet/other").
  - discriminate.
  - discriminate.
  - intros r o m. cbn. unfold VNet.demoSubnetImpl.
    repeat case_match; cbn [fst]; try reflexivity.
    apply lookup_insert_ne. discriminate.
Defined.

Lemma CreateVNet_stored_object_witness :
  exists callResult c,
    VNet.driver VNet.demoEnv
      (VNet.requestOf VNet.demoEnv VNet.registerCspReq "register"
         (VNet.genUid VNet.demoEnv (VNet.uidSeq VNet.emptyWorld))) = inr callResult
    /\ In (VNet.EvPut (VNet.vNetKey "ns01" VNet.registerCspReq) (VNet.DocVNet c))
         (VNet.emitted VNet.demoEnv "ns01" VNet.registerCspReq "register" VNet.emptyWorld)
    /\ VNet.TbVNetInfo.SystemLabel c
       = (if String.eqb "register" "register" then
            if String.eqb (VNet.TbVNetReq.CspVNetId VNet.registerCspReq) "" then
              "Registered from CB-Spider resource"
            else "Registered from CSP resource"
          else "")
    /\ VNet.TbVNetInfo.KeyValueList c = VNet.SpiderVPCInfo.KeyValueList callResult
    /\ VNet.TbVNetInfo.CspVNetId c = VNet.IID.SystemId (VNet.SpiderVPCInfo.IId callResult)
    /\ VNet.TbVNetInfo.Status c = ""
    /\ VNet.TbVNetInfo.IsAutoGenerated c = false
    /\ VNet.TbVNetInfo.SubnetInfoList c = None.
Proof.
  apply (CreateVNet_stored_object VNet.demoEnv "ns01" VNet.registerCspReq "register"
           VNet.emptyWorld).
  vm_compute. reflexivity.
Defined.
